(** * process_info.c: a /proc entry that reports facts about one process

    The module keeps one selected PID ([requested_pid]).  Writing decimal
    text to /proc/process_info selects a process ([process_info_write]);
    reading the file renders the owner, the executable path and a summary of
    the command line of that process ([process_info_show], [read_cmdline]).

    The development is a shallow embedding of these three functions.  C
    integers are [Z] with the conversions written out, C strings are
    [string] (a sequence of 8-bit characters, the terminating NUL left
    implicit), the process table is a finite map, and the effects of a read
    (locks, reference counts, allocations, output) are threaded through a
    small state monad that records a trace of events. *)

From Stdlib Require Import ZArith String Ascii List Lia Bool.
From stdpp Require Import gmap strings pretty.

Local Open Scope string_scope.
Local Open Scope Z_scope.

(** ** C integer types (LP64: [int] has 32 bits, [long] and [long long] 64) *)

Module CInt.

Definition INT_MAX : Z := 2 ^ 31 - 1.
Definition INT_MIN : Z := - 2 ^ 31.
Definition LONG_MAX : Z := 2 ^ 63 - 1.
Definition LONG_MIN : Z := - 2 ^ 63.
Definition ULLONG_MAX : Z := 2 ^ 64 - 1.

(** Conversion to a signed 32-bit type ([int], [pid_t]): the value is
    reduced modulo 2^32 into [INT_MIN, INT_MAX]. *)
Definition to_int (z : Z) : Z := (z + 2 ^ 31) mod 2 ^ 32 - 2 ^ 31.

(** Conversion to [long long] / [long]. *)
Definition to_ll (z : Z) : Z := (z + 2 ^ 63) mod 2 ^ 64 - 2 ^ 63.

(** Conversion to [unsigned long long] / [unsigned long]. *)
Definition to_ull (z : Z) : Z := z mod 2 ^ 64.

End CInt.

(** ** Error numbers *)

Inductive errno : Set := ENOENT | EFAULT | EINVAL | ERANGE | ENAMETOOLONG.

Definition errno_code (e : errno) : Z :=
  match e with
  | ENOENT => 2
  | EFAULT => 14
  | EINVAL => 22
  | ERANGE => 34
  | ENAMETOOLONG => 36
  end.

(** A C function that reports failure as [-errno]. *)
Definition neg_errno (e : errno) : Z := - errno_code e.

(** ** C strings *)

Module CStr.

Definition NUL : ascii := "000"%char.
Definition LF : ascii := "010"%char.

Definition code (c : ascii) : Z := Z.of_N (N_of_ascii c).

(** [strlen] *)
Definition strlen (s : string) : Z := Z.of_nat (String.length s).

(** The first [n] characters of [s]. *)
Fixpoint take (n : nat) (s : string) : string :=
  match n, s with
  | S n', String c s' => String c (take n' s')
  | _, _ => EmptyString
  end.

(** [s] without its first [n] characters: the pointer [s + n]. *)
Fixpoint drop (n : nat) (s : string) : string :=
  match n, s with
  | S n', String _ s' => drop n' s'
  | _, _ => s
  end.

(** The string a [char] array holds: its bytes up to the first NUL. *)
Fixpoint c_string (bytes : string) : string :=
  match bytes with
  | EmptyString => EmptyString
  | String c r => if Ascii.eqb c NUL then EmptyString else String c (c_string r)
  end.

(** [buf[i] = '\0'] on a buffer that holds the string [s]: a store inside
    the string cuts it, a store on or after its terminator leaves it. *)
Definition set_nul (s : string) (i : Z) : string := take (Z.to_nat i) s.

(** [snprintf(buf, size, ...)] where the format expands to [text]: at most
    [size - 1] characters are stored, then the terminator. *)
Definition snprintf (size : Z) (text : string) : string :=
  take (Z.to_nat (size - 1)) text.

(** [strscpy(dst, src, size)]: the same bound as [snprintf]. *)
Definition strscpy (src : string) (size : Z) : string :=
  take (Z.to_nat (size - 1)) src.

(** [strncpy(dst, src, n); dst[n] = '\0'] *)
Definition strncpy_terminated (src : string) (n : Z) : string :=
  take (Z.to_nat n) src.

(** The text up to, and without, the first line feed. *)
Fixpoint first_line (s : string) : string :=
  match s with
  | EmptyString => EmptyString
  | String c r => if Ascii.eqb c LF then EmptyString else String c (first_line r)
  end.

Fixpoint forallb (p : ascii -> bool) (s : string) : bool :=
  match s with
  | EmptyString => true
  | String c r => p c && forallb p r
  end.

(** [c] is not the character [x]. *)
Definition not_char (x c : ascii) : bool := negb (Ascii.eqb c x).

End CStr.

(** ** Kernel helper: [kstrtol] (lib/kstrtox.c)

    The module calls [kstrtol(pid_buffer, 10, &pid_value)].  The helper is
    kernel code, not module code; it is embedded after lib/kstrtox.c, on an
    LP64 kernel where [kstrtol] is [kstrtoll]. *)

Module Kstrtox.
Import CInt CStr.

(** The value of a digit character in bases up to 16, as
    [_parse_integer] computes it ([_tolower] sets bit 0x20). *)
Definition digit_val (c : ascii) : option Z :=
  let n := code c in
  let lc := Z.lor n 32 in
  if (48 <=? n) && (n <=? 57) then Some (n - 48)
  else if (97 <=? lc) && (lc <=? 102) then Some (lc - 97 + 10)
  else None.

(** [_parse_integer]: accumulates digits into an [unsigned long long],
    counting them in [rv]; [ovf] is the KSTRTOX_OVERFLOW bit of the
    result.  The range test runs only once [res] has one of its top four
    bits set.  The scan stops at the first character that is no digit of
    the base, which the end of the string (the NUL) is. *)
Fixpoint _parse_integer (s : string) (base : Z) (res : Z) (rv : nat) (ovf : bool)
  : Z * nat * bool :=
  match s with
  | EmptyString => (res, rv, ovf)
  | String c s' =>
      match digit_val c with
      | None => (res, rv, ovf)
      | Some val =>
          if base <=? val then (res, rv, ovf)
          else
            let ovf' :=
              if negb (Z.land res (Z.shiftl 15 60) =? 0)
              then (if (ULLONG_MAX - val) / base <? res then true else ovf)
              else ovf in
            _parse_integer s' base (to_ull (res * base + val)) (S rv) ovf'
      end
  end.

(** [s + 1] when [*s == c], nothing otherwise. *)
Definition skip_char (c : ascii) (s : string) : option string :=
  match s with
  | String c' r => if Ascii.eqb c' c then Some r else None
  | EmptyString => None
  end.

(** [_kstrtoull]: digits, then at most one line feed, then the end. *)
Definition _kstrtoull (s : string) (base : Z) : errno + Z :=
  let '(_res, rv, ovf) := _parse_integer s base 0 0 false in
  if ovf then inl ERANGE
  else if Nat.eqb rv 0 then inl EINVAL
  else
    let s1 := drop rv s in
    let s2 := match skip_char LF s1 with Some r => r | None => s1 end in
    match s2 with
    | EmptyString => inr _res
    | String _ _ => inl EINVAL
    end.

Definition kstrtoull (s : string) (base : Z) : errno + Z :=
  match skip_char "+" s with
  | Some s' => _kstrtoull s' base
  | None => _kstrtoull s base
  end.

Definition kstrtoll (s : string) (base : Z) : errno + Z :=
  match skip_char "-" s with
  | Some s' =>
      match _kstrtoull s' base with
      | inl e => inl e
      | inr tmp =>
          if 0 <? to_ll (- tmp) then inl ERANGE else inr (to_ll (- tmp))
      end
  | None =>
      match kstrtoull s base with
      | inl e => inl e
      | inr tmp =>
          if to_ll tmp <? 0 then inl ERANGE else inr (to_ll tmp)
      end
  end.

Definition kstrtol (s : string) (base : Z) : errno + Z := kstrtoll s base.

End Kstrtox.

(** ** Decimal text, as the interface describes it

    The write interface takes "a decimal-integer text string": an optional
    sign, one or more decimal digits, and at most one line feed at the very
    end.  [decimal_text] is this grammar together with the number the text
    denotes; it is stated on its own, apart from the parser above. *)

Module Decimal.
Import CStr.

Definition is_digit (c : ascii) : bool := (48 <=? code c) && (code c <=? 57).

(** The characters [%d] prints. *)
Definition sign_or_digit (c : ascii) : bool := Ascii.eqb c "-" || is_digit c.

(** The number a sequence of digits denotes, by Horner's rule. *)
Fixpoint digits_value (acc : Z) (s : string) : Z :=
  match s with
  | EmptyString => acc
  | String c r => digits_value (acc * 10 + (code c - 48)) r
  end.

Definition unsigned_text (s : string) : option Z :=
  match s with
  | EmptyString => None
  | String _ _ => if forallb is_digit s then Some (digits_value 0 s) else None
  end.

(** [s] without one line feed at its end, if it has one. *)
Fixpoint chomp (s : string) : string :=
  match s with
  | EmptyString => EmptyString
  | String c EmptyString => if Ascii.eqb c LF then EmptyString else s
  | String c r => String c (chomp r)
  end.

Definition signed_text (s : string) : option Z :=
  match s with
  | String c r =>
      if Ascii.eqb c "-" then Z.opp <$> unsigned_text r
      else if Ascii.eqb c "+" then unsigned_text r
      else unsigned_text s
  | EmptyString => None
  end.

Definition decimal_text (s : string) : option Z := signed_text (chomp s).

End Decimal.

(** ** Kernel objects the module reads *)

(** A [struct file], reduced to the absolute path [d_path] renders for it. *)
Record file : Type := { f_path : string }.

(** A [struct mm_struct]: bounds of the argument block ([unsigned long])
    and the executable file, if any. *)
Record mm_struct : Type := {
  arg_start : Z;
  arg_end : Z;
  exe_file : option file
}.

(** A [struct task_struct]: the owner ([task_uid]) and the address space
    [get_task_mm] hands out, absent for a kernel thread or an exited task. *)
Record task_struct : Type := {
  task_uid : Z;
  task_mm : option mm_struct
}.

(** What a read sees of the running kernel.  [kmalloc_oracle n] is the
    outcome of the [n]-th allocation of a call: [None] when it fails,
    otherwise the string the fresh, uninitialised buffer happens to hold. *)
Record kernel : Type := {
  pid_hash : gmap Z task_struct;
  uid_view : Z -> Z;
  kmalloc_oracle : nat -> option string
}.

(** Build constants of the kernel.  The headers that define them are not
    part of the module, so they are parameters of the development. *)
Class KernelConfig : Type := {
  PAGE_SIZE : Z;
  PATH_MAX : Z
}.

(** [pid_task(find_vpid(nr), PIDTYPE_PID)] *)
Definition pid_task (k : kernel) (nr : Z) : option task_struct := pid_hash k !! nr.

(** [from_kuid_munged(current_user_ns(), uid)], a [uid_t]. *)
Definition from_kuid_munged (k : kernel) (uid : Z) : Z := uid_view k uid.

(** [d_path(&f->f_path, buf, buflen)]: the path, or [ERR_PTR(-ENAMETOOLONG)]
    when it does not fit with its terminator. *)
Definition d_path (f : file) (buflen : Z) : errno + string :=
  if CStr.strlen (f_path f) + 1 <=? buflen then inr (f_path f) else inl ENAMETOOLONG.

(** [copy_from_user(to, from, n)], where [from] stands for the bytes that
    are readable at the user address: the copy fails when fewer than [n]
    are. *)
Definition copy_from_user (from : string) (n : N) : option string :=
  if (n <=? N.of_nat (String.length from))%N then Some (CStr.take (N.to_nat n) from) else None.

(** ** Effects of a read: events and the call state *)

Inductive gfp : Set := GFP_KERNEL.

Inductive event : Type :=
| EvRcuReadLock
| EvRcuReadUnlock
| EvMmGet                                  (* get_task_mm took a reference *)
| EvMmPut                                  (* mmput *)
| EvDownRead                               (* down_read(&mm->mmap_lock) *)
| EvUpRead                                 (* up_read(&mm->mmap_lock) *)
| EvKmalloc (size : Z) (flags : gfp) (ptr : option nat)   (* the pointer returned *)
| EvKfree (ptr : nat).                                    (* the pointer freed *)

(** A buffer obtained from [kmalloc]: its pointer, which is the number of
    the allocation within the call, and the string it holds. *)
Record buffer : Type := { buf_ptr : nat; buf_text : string }.

(** A string written into a buffer: the pointer stays, the text changes. *)
Definition store (b : buffer) (text : string) : buffer :=
  {| buf_ptr := buf_ptr b; buf_text := text |}.

Record call_state : Type := {
  cs_trace : list event;       (* kernel calls made so far, oldest first *)
  cs_allocs : nat;             (* allocations requested so far *)
  cs_out : string              (* the text in the seq_file *)
}.

Definition call_start : call_state :=
  {| cs_trace := []; cs_allocs := 0; cs_out := "" |}.

Definition M (A : Type) : Type := call_state -> A * call_state.

Definition ret {A} (a : A) : M A := fun s => (a, s).

Definition bind {A B} (m : M A) (f : A -> M B) : M B :=
  fun s => let (a, s') := m s in f a s'.

Declare Scope kmonad_scope.
Delimit Scope kmonad_scope with kmonad.
Notation "x <- c1 ;; c2" := (bind c1 (fun x => c2))
  (at level 100, c1 at next level, right associativity) : kmonad_scope.
Notation "c1 ;; c2" := (bind c1 (fun _ => c2))
  (at level 100, right associativity) : kmonad_scope.

Definition emit (e : event) : M unit :=
  fun s => (tt, {| cs_trace := cs_trace s ++ [e];
                   cs_allocs := cs_allocs s;
                   cs_out := cs_out s |}).

Definition seq_printf (text : string) : M unit :=
  fun s => (tt, {| cs_trace := cs_trace s;
                   cs_allocs := cs_allocs s;
                   cs_out := cs_out s +:+ text |}).

Definition rcu_read_lock : M unit := emit EvRcuReadLock.
Definition rcu_read_unlock : M unit := emit EvRcuReadUnlock.
Definition down_read : M unit := emit EvDownRead.
Definition up_read : M unit := emit EvUpRead.
Definition mmput (mm : mm_struct) : M unit := emit EvMmPut.
Definition kfree (b : buffer) : M unit := emit (EvKfree (buf_ptr b)).

(** [get_task_mm]: a reference is taken only when there is an address space. *)
Definition get_task_mm (task : task_struct) : M (option mm_struct) :=
  match task_mm task with
  | Some mm => bind (emit EvMmGet) (fun _ => ret (Some mm))
  | None => ret None
  end.

Definition kmalloc (k : kernel) (size : Z) (flags : gfp) : M (option buffer) :=
  fun s =>
    let r := match kmalloc_oracle k (cs_allocs s) with
             | Some junk => Some {| buf_ptr := cs_allocs s; buf_text := junk |}
             | None => None
             end in
    (r, {| cs_trace := cs_trace s ++ [EvKmalloc size flags (buf_ptr <$> r)];
           cs_allocs := S (cs_allocs s);
           cs_out := cs_out s |}).

(** ** The module *)

Definition endl : string := String CStr.LF EmptyString.

(** The two texts [read_cmdline] produces. *)
Definition cmdline_length_text (len : Z) : string :=
  "[командная строка длиной " +:+ pretty len +:+ " байт]".

Definition no_cmdline_text : string := "[нет данных о командной строке]".

(** [static pid_t requested_pid = -1;] *)
Record module_state : Type := { requested_pid : Z }.

Definition module_init_state : module_state := {| requested_pid := -1 |}.

Section Module_process_info.
Context {cfg : KernelConfig}.
Variable k : kernel.
Import CInt CStr.
Local Open Scope kmonad_scope.

(** [read_cmdline(task, buffer, buf_size)]: the result and the string
    [buffer] holds afterwards.  A null pointer is [None]. *)
Definition read_cmdline (task : option task_struct) (buffer : option string)
    (buf_size : Z) : M (Z * option string) :=
  match buffer, task with
  | Some _, Some task =>
      mm <- get_task_mm task ;;
      match mm with
      | None => ret (neg_errno ENOENT, buffer)
      | Some mm =>
          let buffer :=
            if arg_start mm <? arg_end mm then
              let len := to_int (to_ull (arg_end mm - arg_start mm)) in
              let len := if buf_size - 1 <? len then buf_size - 1 else len in
              snprintf buf_size (cmdline_length_text len)
            else
              strscpy no_cmdline_text buf_size in
          let r := to_int (strlen buffer) in
          mmput mm ;;
          ret (r, Some buffer)
      end
  | _, _ => ret (neg_errno EINVAL, buffer)
  end.

(** [process_info_show(m, v)].  The local pointers [exec_path], [buffer]
    and [cmdline] are [None] while null and otherwise the buffer they point
    to, with the string it holds. *)
Definition process_info_show (st : module_state) : M Z :=
  if requested_pid st <=? 0 then
    seq_printf ("No valid PID provided" +:+ endl) ;;
    ret 0
  else
    rcu_read_lock ;;
    match pid_task k (requested_pid st) with
    | None =>
        rcu_read_unlock ;;
        seq_printf ("Process with PID " +:+ pretty (requested_pid st) +:+ " not found" +:+ endl) ;;
        ret 0
    | Some task =>
        let uid := to_int (from_kuid_munged k (task_uid task)) in
        mm <- get_task_mm task ;;
        fields <-
          match mm with
          | Some mm =>
              exec_path <- kmalloc k PATH_MAX GFP_KERNEL ;;
              exec_path <-
                match exec_path with
                | Some exec_path =>
                    down_read ;;
                    let path :=
                      match exe_file mm with
                      | Some f =>
                          match d_path f PATH_MAX with
                          | inr tmp => tmp
                          | inl _ => "Unknown"
                          end
                      | None => "Unknown"
                      end in
                    up_read ;;
                    ret (Some (store exec_path path))
                | None => ret None
                end ;;
              buffer <- kmalloc k PAGE_SIZE GFP_KERNEL ;;
              cmdline <-
                match buffer with
                | Some buffer =>
                    cmdline <- kmalloc k PAGE_SIZE GFP_KERNEL ;;
                    cmdline <-
                      match cmdline with
                      | Some cmdline =>
                          r <- read_cmdline (Some task) (Some (buf_text buffer))
                                 (to_int (PAGE_SIZE - 1)) ;;
                          let '(arg_len, text) := r in
                          let text :=
                            set_nul (default "" text) (if 0 <? arg_len then arg_len else 0) in
                          ret (Some (store cmdline (strncpy_terminated text (PAGE_SIZE - 1))))
                      | None => ret None
                      end ;;
                    kfree buffer ;;
                    ret cmdline
                | None => ret None
                end ;;
              mmput mm ;;
              ret (exec_path, cmdline)
          | None => ret (None, None)
          end ;;
        let '(exec_path, cmdline) := fields in
        seq_printf ("PID: " +:+ pretty (requested_pid st) +:+ endl) ;;
        seq_printf ("UID: " +:+ pretty uid +:+ endl) ;;
        seq_printf ("Executable: " +:+ default "Unknown" (buf_text <$> exec_path) +:+ endl) ;;
        seq_printf ("Command line: " +:+ default "Unknown" (buf_text <$> cmdline) +:+ endl) ;;
        match exec_path with Some exec_path => kfree exec_path | None => ret tt end ;;
        match cmdline with Some cmdline => kfree cmdline | None => ret tt end ;;
        rcu_read_unlock ;;
        ret 0
    end.

(** [process_info_write(file, buffer, len, off)]: the result and the
    module state afterwards.  [pid_buffer] holds the [len] copied bytes
    followed by a NUL, so the parser sees them up to their first NUL. *)
Definition process_info_write (buffer : string) (len : N) (st : module_state)
  : Z * module_state :=
  if (31 <? len)%N then (neg_errno EINVAL, st)
  else
    match copy_from_user buffer len with
    | None => (neg_errno EFAULT, st)
    | Some bytes =>
        let pid_buffer := c_string bytes in
        match Kstrtox.kstrtol pid_buffer 10 with
        | inl _ => (neg_errno EINVAL, st)
        | inr pid_value => (Z.of_N len, {| requested_pid := to_int pid_value |})
        end
    end.

(** One read of /proc/process_info: the status [process_info_show]
    returns, the text it leaves in the seq_file, and its kernel calls. *)
Definition read_status (st : module_state) : Z := fst (process_info_show st call_start).
Definition read_text (st : module_state) : string := cs_out (snd (process_info_show st call_start)).
Definition read_trace (st : module_state) : list event := cs_trace (snd (process_info_show st call_start)).

End Module_process_info.

(** ** The report, as the interface describes it

    A snapshot has an owner and two optional fields; the formatter writes
    four lines and puts "Unknown" for a field that is absent. *)

Record snapshot : Type := {
  ownerId : Z;
  executablePath : option string;
  commandLineSummary : option string
}.

Definition render (id : Z) (s : snapshot) : string :=
  ("PID: " +:+ pretty id +:+ endl) +:+
  ("UID: " +:+ pretty (ownerId s) +:+ endl) +:+
  ("Executable: " +:+ default "Unknown" (executablePath s) +:+ endl) +:+
  ("Command line: " +:+ default "Unknown" (commandLineSummary s) +:+ endl).

Definition no_selection_line : string := "No valid PID provided" +:+ endl.

Definition not_found_line (id : Z) : string :=
  "Process with PID " +:+ pretty id +:+ " not found" +:+ endl.

(** The executable field a read computes for an address space, given the
    outcome of the allocation of its buffer. *)
Definition executable_field `{KernelConfig} (path_buffer : option string) (mm : mm_struct)
  : option string :=
  match path_buffer with
  | None => None
  | Some _ =>
      Some match exe_file mm with
           | Some f => match d_path f PATH_MAX with inr p => p | inl _ => "Unknown" end
           | None => "Unknown"
           end
  end.

(** The summary of an argument block: the length of a non-empty block, as
    the [int] the module computes, is reported up to [PAGE_SIZE - 2]. *)
Definition argument_summary `{KernelConfig} (mm : mm_struct) : string :=
  if arg_start mm <? arg_end mm
  then cmdline_length_text
         (Z.min (CInt.to_int (CInt.to_ull (arg_end mm - arg_start mm))) (PAGE_SIZE - 2))
  else no_cmdline_text.

(** The command-line field a read computes for an address space, given
    the outcomes of the allocations of its two buffers. *)
Definition command_line_field `{KernelConfig} (buffer cmdline : option string)
    (mm : mm_struct) : option string :=
  match buffer, cmdline with
  | Some _, Some _ => Some (argument_summary mm)
  | _, _ => None
  end.

(** The snapshot a read takes of a live process: the owner as an [int],
    and the two fields, absent when the process has no address space or
    when a buffer for the field could not be allocated. *)
Definition snapshot_of `{KernelConfig} (k : kernel) (task : task_struct) : snapshot :=
  {| ownerId := CInt.to_int (from_kuid_munged k (task_uid task));
     executablePath :=
       match task_mm task with
       | Some mm => executable_field (kmalloc_oracle k 0) mm
       | None => None
       end;
     commandLineSummary :=
       match task_mm task with
       | Some mm => command_line_field (kmalloc_oracle k 1) (kmalloc_oracle k 2) mm
       | None => None
       end |}.

(** The number of line feeds in a text: the number of its lines, when each
    line is ended by one. *)
Fixpoint line_feeds (s : string) : nat :=
  match s with
  | EmptyString => 0
  | String c r => (if Ascii.eqb c CStr.LF then 1 else 0) + line_feeds r
  end.

(** A report names the identifier [id] when its first line is the PID line
    or the not-found line of [id]. *)
Definition names_pid (text : string) (id : Z) : Prop :=
  CStr.first_line text = "PID: " +:+ pretty id \/
  CStr.first_line text = "Process with PID " +:+ pretty id +:+ " not found".

(** ** Disciplines on the kernel calls of a read *)

Module Trace.

(** References on the address space that are held after [t], starting
    from [held]; [None] when [t] drops a reference it does not hold. *)
Fixpoint mm_refs (held : nat) (t : list event) : option nat :=
  match t with
  | [] => Some held
  | EvMmGet :: t' => mm_refs (S held) t'
  | EvMmPut :: t' => match held with O => None | S h => mm_refs h t' end
  | _ :: t' => mm_refs held t'
  end.

(** Read holds of [mmap_lock] after [t]. *)
Fixpoint mmap_locks (held : nat) (t : list event) : option nat :=
  match t with
  | [] => Some held
  | EvDownRead :: t' => mmap_locks (S held) t'
  | EvUpRead :: t' => match held with O => None | S h => mmap_locks h t' end
  | _ :: t' => mmap_locks held t'
  end.

Inductive resource : Set := TableGuard | MmHandle | MmLock.

Definition acquires (e : event) : option resource :=
  match e with
  | EvRcuReadLock => Some TableGuard
  | EvMmGet => Some MmHandle
  | EvDownRead => Some MmLock
  | _ => None
  end.

Definition releases (e : event) : option resource :=
  match e with
  | EvRcuReadUnlock => Some TableGuard
  | EvMmPut => Some MmHandle
  | EvUpRead => Some MmLock
  | _ => None
  end.

Definition resource_eqb (a b : resource) : bool :=
  match a, b with
  | TableGuard, TableGuard | MmHandle, MmHandle | MmLock, MmLock => true
  | _, _ => false
  end.

(** The resources held after [t], most recent first, when every release
    in [t] gives up the most recently acquired resource still held. *)
Fixpoint nested (stack : list resource) (t : list event) : option (list resource) :=
  match t with
  | [] => Some stack
  | e :: t' =>
      match acquires e, releases e with
      | Some r, _ => nested (r :: stack) t'
      | None, Some r =>
          match stack with
          | top :: rest => if resource_eqb top r then nested rest t' else None
          | [] => None
          end
      | None, None => nested stack t'
      end
  end.

(** An allocation that may block: [kmalloc] with [GFP_KERNEL] may wait for
    memory to be reclaimed. *)
Definition blocking_alloc (e : event) : bool :=
  match e with
  | EvKmalloc _ GFP_KERNEL _ => true
  | _ => false
  end.

(** Kernel calls that may sleep: a blocking allocation, and [down_read]
    and [mmput], which both start with [might_sleep()]. *)
Definition may_sleep (e : event) : bool :=
  match e with
  | EvDownRead | EvMmPut => true
  | _ => blocking_alloc e
  end.

(** Whether [t] makes a call of the kind [p] inside an RCU read-side
    section, [depth] sections being open at its start. *)
Fixpoint in_rcu (p : event -> bool) (depth : nat) (t : list event) : bool :=
  match t with
  | [] => false
  | EvRcuReadLock :: t' => in_rcu p (S depth) t'
  | EvRcuReadUnlock :: t' => in_rcu p (Nat.pred depth) t'
  | e :: t' => (p e && negb (Nat.eqb depth 0)) || in_rcu p depth t'
  end.

End Trace.

(** ** A small system to run the module on *)

Module Demo.

Definition x86_64 : KernelConfig := {| PAGE_SIZE := 4096; PATH_MAX := 4096 |}.

(** PID 1, owned by root, started as "/sbin/init" (eleven bytes with the
    terminator). *)
Definition init_task : task_struct :=
  {| task_uid := 0;
     task_mm := Some {| arg_start := 140737488350000;
                        arg_end := 140737488350011;
                        exe_file := Some {| f_path := "/sbin/init" |} |} |}.

(** PID 2, a kernel thread: no address space. *)
Definition kthreadd : task_struct := {| task_uid := 0; task_mm := None |}.

(** PID 700, a compiler run with 5000 bytes of arguments. *)
Definition cc_task : task_struct :=
  {| task_uid := 1000;
     task_mm := Some {| arg_start := 140737488340000;
                        arg_end := 140737488345000;
                        exe_file := Some {| f_path := "/usr/bin/cc" |} |} |}.

(** PID 701, whose argument block is empty. *)
Definition bare_task : task_struct :=
  {| task_uid := 1000;
     task_mm := Some {| arg_start := 140737488340000;
                        arg_end := 140737488340000;
                        exe_file := None |} |}.

Definition system : kernel :=
  {| pid_hash := <[1 := init_task]> (<[2 := kthreadd]> (<[700 := cc_task]> (<[701 := bare_task]> ∅)));
     uid_view := fun uid => uid;
     kmalloc_oracle := fun _ => Some "" |}.

Definition selected (pid : Z) : module_state := {| requested_pid := pid |}.

(** Thirty-two bytes that denote 4294967297. *)
Definition padded_text : string := "00000000000000000000004294967297".

(** The bytes [1 2 NUL a b c]. *)
Definition text_with_nul : string := "12" +:+ String CStr.NUL "abc".

End Demo.

(** ** More of the module: sequences of writes, buffers, loading

    The definitions below serve the properties proved beyond the report and
    the write interface: what a run of writes leaves selected, whether a
    read gives back the buffers it allocates, and what loading and unloading
    the module do to /proc. *)

(** A run of writes, oldest first, each given by the user buffer and the
    length passed with it; the statuses are dropped. *)
Definition write_seq (ws : list (string * N)) (st : module_state) : module_state :=
  fold_left (fun st w => snd (process_info_write (fst w) (snd w) st)) ws st.

(** The characters a decimal text is made of: digits, the two signs and
    the line feed. *)
Definition decimal_char (c : ascii) : bool :=
  Decimal.is_digit c || Ascii.eqb c "+" || Ascii.eqb c "-" || Ascii.eqb c CStr.LF.

Module Heap.

Definition is_live (p : nat) (live : list nat) : bool := existsb (Nat.eqb p) live.

Definition unlive (p : nat) (live : list nat) : list nat :=
  filter (fun q => negb (Nat.eqb p q)) live.

(** The pointers obtained from [kmalloc] and not yet passed to [kfree]
    after [t], starting from [live]; [None] when [t] frees a pointer that
    is not live (never allocated, or freed before) or allocates one that
    still is.  A failed allocation yields no pointer. *)
Fixpoint live_buffers (live : list nat) (t : list event) : option (list nat) :=
  match t with
  | [] => Some live
  | EvKmalloc _ _ (Some p) :: t' =>
      if is_live p live then None else live_buffers (p :: live) t'
  | EvKfree p :: t' =>
      if is_live p live then live_buffers (unlive p live) t' else None
  | _ :: t' => live_buffers live t'
  end.

Definition is_kmalloc (e : event) : bool :=
  match e with EvKmalloc _ _ _ => true | _ => false end.

End Heap.

(** Loading and unloading: [process_info_init] and [process_info_exit].

    /proc is a finite map from names to entries.  [proc_create(name, mode,
    NULL, ops)] is kernel code: it gives no entry when it cannot allocate
    one or when the name is taken, and otherwise registers the entry.
    [proc_remove] unregisters the entry it is given and does nothing for a
    null pointer.  The kernel log is the list of lines printed, oldest
    first. *)
Module Lifecycle.

Definition PROCFS_NAME : string := "process_info".

Definition ENOMEM : Z := 12.

Inductive handler : Set :=
| process_info_open_handler
| seq_read_handler
| process_info_write_handler
| seq_lseek_handler
| single_release_handler.

(** [struct proc_ops] *)
Record proc_ops : Set := {
  proc_open : handler;
  proc_read : handler;
  proc_write : handler;
  proc_lseek : handler;
  proc_release : handler
}.

(** [static const struct proc_ops proc_file_ops] *)
Definition proc_file_ops : proc_ops :=
  {| proc_open := process_info_open_handler;
     proc_read := seq_read_handler;
     proc_write := process_info_write_handler;
     proc_lseek := seq_lseek_handler;
     proc_release := single_release_handler |}.

Record proc_dir_entry : Set := {
  pde_mode : Z;
  pde_ops : proc_ops
}.

(** The kernel around the module while it is loaded or unloaded, and the
    module's pointer [proc_file], which names the entry it points to. *)
Record loader : Type := {
  proc_root : gmap string proc_dir_entry;
  kernel_log : list string;
  proc_file : option string
}.

Definition printk (line : string) (s : loader) : loader :=
  {| proc_root := proc_root s;
     kernel_log := kernel_log s ++ [line];
     proc_file := proc_file s |}.

(** [proc_create]: [can_allocate] is whether the kernel finds memory for
    the entry. *)
Definition proc_create (can_allocate : bool) (name : string) (mode : Z) (ops : proc_ops)
    (root : gmap string proc_dir_entry) : option string * gmap string proc_dir_entry :=
  match root !! name with
  | Some _ => (None, root)
  | None =>
      if can_allocate
      then (Some name, <[name := {| pde_mode := mode; pde_ops := ops |}]> root)
      else (None, root)
  end.

Definition proc_remove (de : option string) (root : gmap string proc_dir_entry)
  : gmap string proc_dir_entry :=
  match de with
  | Some name => delete name root
  | None => root
  end.

(** [process_info_init(void)]: the mode [0666] is octal. *)
Definition process_info_init (can_allocate : bool) (s : loader) : Z * loader :=
  let '(entry, root) := proc_create can_allocate PROCFS_NAME 438 proc_file_ops (proc_root s) in
  let s := {| proc_root := root; kernel_log := kernel_log s; proc_file := entry |} in
  match proc_file s with
  | None => (- ENOMEM, printk ("Failed to create proc entry" +:+ endl) s)
  | Some _ => (0, printk ("Process Info Module loaded" +:+ endl) s)
  end.

(** [process_info_exit(void)] *)
Definition process_info_exit (s : loader) : loader :=
  let s := {| proc_root := proc_remove (proc_file s) (proc_root s);
              kernel_log := kernel_log s;
              proc_file := proc_file s |} in
  printk ("Process Info Module unloaded" +:+ endl) s.

End Lifecycle.

(** More processes to run the module on. *)
Module MoreDemo.

(** A process of the user 4294967294, the largest id but one of a
    [uid_t], with a path of 5000 characters, too long for [d_path]. *)
Definition long_path : string :=
  String.concat "" (List.repeat "/aaaaaaaaa" 500).

Definition far_task : task_struct :=
  {| task_uid := 4294967294;
     task_mm := Some {| arg_start := 140737488340000;
                        arg_end := 140737488340020;
                        exe_file := Some {| f_path := long_path |} |} |}.

Definition system : kernel :=
  {| pid_hash := <[900 := far_task]> (pid_hash Demo.system);
     uid_view := fun uid => uid;
     kmalloc_oracle := fun n => if Nat.eqb n 1 then None else Some "" |}.

(** PID 950 runs an executable whose file name holds a line feed. *)
Definition odd_path : string := "/tmp/odd" +:+ String CStr.LF "name".

Definition odd_task : task_struct :=
  {| task_uid := 1000;
     task_mm := Some {| arg_start := 140737488340000;
                        arg_end := 140737488340009;
                        exe_file := Some {| f_path := odd_path |} |} |}.

Definition odd_system : kernel :=
  {| pid_hash := <[950 := odd_task]> (pid_hash Demo.system);
     uid_view := fun uid => uid;
     kmalloc_oracle := fun _ => Some "" |}.

(** /proc before the module is loaded, with one entry of another module. *)
Definition before_load : Lifecycle.loader :=
  {| Lifecycle.proc_root :=
       {[ "uptime" := {| Lifecycle.pde_mode := 292;
                         Lifecycle.pde_ops := Lifecycle.proc_file_ops |} ]};
     Lifecycle.kernel_log := [];
     Lifecycle.proc_file := None |}.

End MoreDemo.

(** * Proof support *)

(** Runs [process_info_show] through each of its branches: no selection,
    no such process, a process without address space, and a process with
    one under each outcome of the three allocations. *)
Ltac show_branches k st :=
  unfold read_status, read_text, read_trace, process_info_show;
  destruct (Z.leb_spec (requested_pid st) 0) as [Hsel | Hsel];
  [ | destruct (pid_task k (requested_pid st)) as [tsk|] eqn:Hfind;
      [ unfold read_cmdline, get_task_mm;
        destruct (task_mm tsk) as [mm0|] eqn:Hmm0;
        [ destruct (kmalloc_oracle k 0) as [b0|] eqn:E0;
          destruct (kmalloc_oracle k 1) as [b1|] eqn:E1;
          destruct (kmalloc_oracle k 2) as [b2|] eqn:E2 | ] | ] ];
  unfold bind, ret, rcu_read_lock, rcu_read_unlock, down_read, up_read,
    mmput, kfree, emit, seq_printf, kmalloc, call_start;
  repeat (cbn [cs_trace cs_allocs cs_out app fst snd buf_ptr buf_text store];
          repeat match goal with
                 | H : kmalloc_oracle _ _ = _ |- _ => rewrite H
                 end).

(** * Facts about strings *)

Module CStrFacts.
Import CStr.

Lemma app_nil (b : string) : "" +:+ b = b.
Proof. reflexivity. Qed.

Lemma app_cons (x : ascii) (a b : string) : String x a +:+ b = String x (a +:+ b).
Proof. reflexivity. Qed.

Lemma app_assoc (a b c : string) : (a +:+ b) +:+ c = a +:+ (b +:+ c).
Proof.
  induction a as [|x a IH]; [reflexivity|].
  now rewrite !app_cons, IH.
Qed.

Lemma app_empty_r (a : string) : a +:+ "" = a.
Proof.
  induction a as [|x a IH]; [reflexivity|].
  now rewrite app_cons, IH.
Qed.

Lemma length_app (a b : string) :
  String.length (a +:+ b) = (String.length a + String.length b)%nat.
Proof.
  induction a as [|x a IH]; [reflexivity|].
  rewrite app_cons; simpl. now rewrite IH.
Qed.

Lemma length_take (n : nat) (s : string) :
  String.length (take n s) = Nat.min n (String.length s).
Proof.
  revert s; induction n as [|n IH]; intros [|c s]; simpl; try reflexivity.
  now rewrite IH.
Qed.

Lemma take_all (n : nat) (s : string) :
  (String.length s <= n)%nat -> take n s = s.
Proof.
  revert s; induction n as [|n IH]; intros [|c s] Hle; simpl in *;
    try reflexivity; try lia.
  rewrite IH; [reflexivity | lia].
Qed.

Lemma forallb_app (p : ascii -> bool) (a b : string) :
  forallb p (a +:+ b) = forallb p a && forallb p b.
Proof.
  induction a as [|x a IH]; [reflexivity|].
  rewrite app_cons; simpl. now rewrite IH, andb_assoc.
Qed.

Lemma forallb_impl (p q : ascii -> bool) (s : string) :
  (forall c, p c = true -> q c = true) -> forallb p s = true -> forallb q s = true.
Proof.
  intros Hpq; induction s as [|c s IH]; simpl; [reflexivity|].
  rewrite !andb_true_iff; intros [Hc Hs]; auto.
Qed.

(** A text without line feed is the first line of whatever follows it
    after a line feed. *)
Lemma first_line_app (s r : string) :
  forallb (not_char LF) s = true -> first_line (s +:+ String LF r) = s.
Proof.
  induction s as [|c s IH].
  - reflexivity.
  - rewrite app_cons. simpl. unfold not_char at 1.
    rewrite andb_true_iff, negb_true_iff.
    intros [Hc Hs]. rewrite Hc, IH; trivial.
Qed.

(** A text without NUL is the string its bytes hold. *)
Lemma c_string_id (s : string) :
  forallb (not_char NUL) s = true -> c_string s = s.
Proof.
  induction s as [|c s IH]; simpl.
  - reflexivity.
  - unfold not_char at 1. rewrite andb_true_iff, negb_true_iff.
    intros [Hc Hs]. rewrite Hc, IH; trivial.
Qed.

End CStrFacts.

(** * Facts about the decimal rendering [pretty], the model of [%d] *)

Module PrettyFacts.
Import CStr Decimal CStrFacts.

Lemma pretty_N_char_digit (x : N) : is_digit (pretty_N_char x) = true.
Proof.
  unfold pretty_N_char.
  repeat (match goal with |- context [match ?y with _ => _ end] => destruct y end;
          try reflexivity).
Qed.

Lemma pretty_N_go_digits (x : N) (s : string) :
  forallb is_digit s = true -> forallb is_digit (pretty_N_go x s) = true.
Proof.
  revert s. induction (N.lt_wf_0 x) as [x _ IH]; intros s Hs.
  destruct (N.eq_dec x 0%N) as [-> | Hx].
  - now rewrite pretty_N_go_0.
  - rewrite pretty_N_go_step by lia.
    apply IH.
    + apply N.div_lt; lia.
    + simpl. now rewrite pretty_N_char_digit.
Qed.

(** [x] below [10^d] is rendered with at most [d] digits. *)
Lemma pretty_N_go_length (d : nat) : forall (x : N) (s : string),
  (x < 10 ^ N.of_nat d)%N ->
  (String.length (pretty_N_go x s) <= d + String.length s)%nat.
Proof.
  induction d as [|d IH]; intros x s Hx.
  - assert (x = 0%N) as -> by (simpl in Hx; lia).
    rewrite pretty_N_go_0. lia.
  - destruct (N.eq_dec x 0%N) as [-> | Hne].
    + rewrite pretty_N_go_0. lia.
    + rewrite pretty_N_go_step by lia.
      etransitivity; [apply IH|simpl; lia].
      apply N.Div0.div_lt_upper_bound.
      rewrite Nat2N.inj_succ, N.pow_succ_r' in Hx. lia.
Qed.

Lemma pretty_N_digits (x : N) : forallb is_digit (pretty x) = true.
Proof.
  unfold pretty, pretty_N. destruct (decide (x = 0%N)); [reflexivity|].
  now apply pretty_N_go_digits.
Qed.

Lemma pretty_N_length (d : nat) (x : N) :
  (x < 10 ^ N.of_nat (S d))%N -> (String.length (pretty x) <= S d)%nat.
Proof.
  intros Hx. unfold pretty, pretty_N. destruct (decide (x = 0%N)).
  - simpl; lia.
  - pose proof (pretty_N_go_length (S d) x "" Hx) as H. simpl in H. lia.
Qed.

Lemma pretty_Z_chars (z : Z) : forallb sign_or_digit (pretty z) = true.
Proof.
  assert (Hd : forall c, is_digit c = true -> sign_or_digit c = true).
  { intros c Hc. unfold sign_or_digit. now rewrite Hc, orb_true_r. }
  destruct z as [|p|p]; unfold pretty, pretty_Z; try reflexivity.
  - apply (forallb_impl is_digit); auto. apply pretty_N_digits.
  - simpl. apply (forallb_impl is_digit); auto. apply pretty_N_digits.
Qed.

Lemma sign_or_digit_not_LF (c : ascii) : sign_or_digit c = true -> not_char LF c = true.
Proof.
  unfold sign_or_digit, not_char, is_digit.
  destruct (Ascii.eqb_spec c LF) as [-> | ]; [discriminate | reflexivity].
Qed.

(** No number is printed with a line feed in it. *)
Lemma pretty_Z_no_LF (z : Z) : forallb (not_char LF) (pretty z) = true.
Proof.
  apply (forallb_impl sign_or_digit); [apply sign_or_digit_not_LF | apply pretty_Z_chars].
Qed.

(** An [int] is printed with at most eleven characters. *)
Lemma pretty_int_length (z : Z) :
  - 2 ^ 31 <= z < 2 ^ 31 -> (String.length (pretty z) <= 11)%nat.
Proof.
  intros Hz. destruct z as [|p|p]; unfold pretty, pretty_Z.
  - simpl; lia.
  - unfold pretty, pretty_positive.
    pose proof (pretty_N_length 9 (N.pos p)) as H.
    etransitivity; [apply H|lia]. change (10 ^ N.of_nat 10)%N with 10000000000%N. lia.
  - change (String.length ("-" +:+ pretty p)) with (S (String.length (pretty p))).
    unfold pretty, pretty_positive.
    pose proof (pretty_N_length 9 (N.pos p)) as H.
    apply le_n_S. etransitivity; [apply H|lia].
    change (10 ^ N.of_nat 10)%N with 10000000000%N. lia.
Qed.

End PrettyFacts.

(** * [kstrtol] accepts exactly the decimal texts that fit a [long] *)

Module KstrtoxFacts.
Import CInt CStr Decimal Kstrtox CStrFacts.

Lemma code_range (c : ascii) : 0 <= code c < 256.
Proof. unfold code. pose proof (N_ascii_bounded c). lia. Qed.

Lemma digit_val_digit (c : ascii) :
  is_digit c = true -> digit_val c = Some (code c - 48) /\ 0 <= code c - 48 < 10.
Proof.
  unfold is_digit, digit_val. intros H. rewrite H.
  apply andb_true_iff in H as [H1 H2]. split; [reflexivity | lia].
Qed.

Lemma digit_val_other (c : ascii) :
  is_digit c = false -> match digit_val c with Some v => 10 <= v | None => True end.
Proof.
  unfold is_digit, digit_val. intros H. rewrite H. clear H.
  destruct ((97 <=? Z.lor (code c) 32) && (Z.lor (code c) 32 <=? 102)) eqn:E; [|exact I].
  apply andb_true_iff in E. lia.
Qed.

(** The test [res & (~0ull << 60)] sees whether [res] has reached 2^60. *)
Lemma top_bits_test (res : Z) :
  0 <= res < 2 ^ 64 -> (Z.land res (Z.shiftl 15 60) =? 0) = (res <? 2 ^ 60).
Proof.
  intros Hres.
  assert (E : Z.land res (Z.shiftl 15 60) = Z.shiftl (Z.land (Z.shiftr res 60) 15) 60).
  { apply Z.bits_inj'. intros n Hn.
    rewrite Z.land_spec, !Z.shiftl_spec by lia.
    destruct (Z.lt_ge_cases n 60) as [Hlt | Hge].
    - rewrite !(Z.testbit_neg_r _ (n - 60)) by lia. apply andb_false_r.
    - rewrite Z.land_spec, Z.shiftr_spec by lia.
      now replace (n - 60 + 60) with n by lia. }
  rewrite E. change 15 with (Z.ones 4).
  rewrite Z.land_ones, Z.shiftr_div_pow2, Z.shiftl_mul_pow2 by lia.
  assert (0 <= res / 2 ^ 60 < 2 ^ 4).
  { split; [apply Z.div_pos; lia | apply Z.div_lt_upper_bound; lia]. }
  rewrite Z.mod_small by lia.
  destruct (Z.ltb_spec res (2 ^ 60)) as [Hlt | Hge].
  - rewrite Z.div_small by lia. reflexivity.
  - apply Z.eqb_neq. assert (1 <= res / 2 ^ 60) by (apply Z.div_le_lower_bound; lia). lia.
Qed.

Lemma digits_value_ge (ds : string) : forall acc,
  forallb is_digit ds = true -> 0 <= acc -> acc <= digits_value acc ds.
Proof.
  induction ds as [|c ds IH]; intros acc Hds Hacc; simpl in *; [lia|].
  apply andb_true_iff in Hds as [Hc Hds].
  apply digit_val_digit in Hc as [_ Hc].
  etransitivity; [|apply IH; trivial]; lia.
Qed.

Lemma drop_app (a b : string) : drop (String.length a) (a +:+ b) = b.
Proof. induction a as [|x a IH]; [reflexivity | rewrite app_cons; simpl; apply IH]. Qed.

(** Every string is a run of digits followed by something that does not
    start with a digit. *)
Lemma digits_span (s : string) :
  exists ds rest, s = ds +:+ rest /\ forallb is_digit ds = true /\
    match rest with String c _ => is_digit c | EmptyString => false end = false.
Proof.
  induction s as [|c s (ds & rest & -> & Hds & Hrest)].
  - exists "", "". auto.
  - destruct (is_digit c) eqn:Hc.
    + exists (String c ds), rest. rewrite app_cons. simpl. rewrite Hc. auto.
    + exists "", (String c (ds +:+ rest)). auto.
Qed.

(** The scan of [_parse_integer] over a run of digits.  [tv] is the
    number read so far, without wrap-around: the accumulator equals it
    until the overflow bit is set, which happens when it passes
    [ULLONG_MAX]. *)
Lemma parse_integer_digits (ds rest : string) :
  forallb is_digit ds = true ->
  match rest with String c _ => is_digit c | EmptyString => false end = false ->
  forall (res : Z) (rv : nat) (ovf : bool) (tv : Z),
    0 <= res < 2 ^ 64 ->
    (if ovf return Prop then 2 ^ 64 <= tv else res = tv) ->
    exists res' ovf',
      _parse_integer (ds +:+ rest) 10 res rv ovf = (res', (rv + String.length ds)%nat, ovf') /\
      0 <= res' < 2 ^ 64 /\
      (if ovf' return Prop then 2 ^ 64 <= digits_value tv ds else res' = digits_value tv ds).
Proof.
  intros Hds Hrest. induction ds as [|c ds IH]; intros res rv ovf tv Hres Hinv.
  - exists res, ovf. rewrite app_nil, Nat.add_0_r. simpl. split; [|auto].
    destruct rest as [|c r]; [reflexivity|]. simpl.
    pose proof (digit_val_other c Hrest) as Hc.
    destruct (digit_val c) as [v|]; [|reflexivity].
    destruct (Z.leb_spec 10 v); [reflexivity | lia].
  - simpl in Hds. apply andb_true_iff in Hds as [Hc Hds].
    destruct (digit_val_digit c Hc) as [Hval Hrange].
    rewrite app_cons. simpl. rewrite Hval.
    destruct (Z.leb_spec 10 (code c - 48)) as [|_]; [lia|].
    rewrite top_bits_test by trivial.
    set (val := code c - 48) in *.
    replace (rv + S (String.length ds))%nat with (S rv + String.length ds)%nat by lia.
    apply IH; trivial.
    + unfold to_ull. apply Z.mod_pos_bound. lia.
    + unfold to_ull, ULLONG_MAX.
      destruct ovf.
      * assert (2 ^ 64 <= tv * 10 + val) by lia.
        destruct (negb (res <? 2 ^ 60)); [destruct (_ <? res)|]; trivial.
      * subst tv.
        destruct (Z.ltb_spec res (2 ^ 60)) as [Hlt | Hge]; simpl.
        { rewrite Z.mod_small; lia. }
        destruct (Z.ltb_spec ((2 ^ 64 - 1 - val) / 10) res) as [Hov | Hok].
        { Z.div_mod_to_equations. lia. }
        { rewrite Z.mod_small; [reflexivity|]. Z.div_mod_to_equations. lia. }
Qed.

Lemma chomp_digits (ds : string) : forallb is_digit ds = true -> chomp ds = ds.
Proof.
  induction ds as [|c ds IH]; [reflexivity|]. simpl.
  intros H. apply andb_true_iff in H as [Hc Hds].
  rewrite IH by trivial.
  destruct ds; [|reflexivity].
  destruct (Ascii.eqb_spec c LF) as [-> |]; [discriminate | reflexivity].
Qed.

Lemma chomp_app_LF (s : string) : chomp (s +:+ String LF "") = s.
Proof.
  induction s as [|c s IH]; [reflexivity|].
  rewrite app_cons. simpl. rewrite IH.
  destruct s; reflexivity.
Qed.

Lemma chomp_cases (s : string) : s = chomp s \/ s = chomp s +:+ String LF "".
Proof.
  induction s as [|c s IH]; [now left|]. simpl.
  destruct s as [|c' s].
  - destruct (Ascii.eqb_spec c LF) as [-> |]; [now right | now left].
  - rewrite app_cons. destruct IH as [IH | IH]; [left | right]; congruence.
Qed.

Lemma chomp_cons (c : ascii) (s : string) :
  c <> LF -> chomp (String c s) = String c (chomp s).
Proof.
  intros Hc. simpl. destruct s; [|reflexivity].
  destruct (Ascii.eqb_spec c LF); [contradiction | reflexivity].
Qed.

Lemma unsigned_text_digits (ds : string) (v : Z) :
  unsigned_text ds = Some v <->
  ds <> "" /\ forallb is_digit ds = true /\ v = digits_value 0 ds.
Proof.
  unfold unsigned_text. destruct ds as [|c ds].
  - split; [discriminate | intros [[] _]; reflexivity].
  - destruct (forallb is_digit (String c ds)); split.
    + intros [= <-]. auto.
    + intros (_ & _ & ->). reflexivity.
    + discriminate.
    + intros (_ & [=] & _).
Qed.

(** [_kstrtoull] succeeds on the unsigned decimal texts up to
    [ULLONG_MAX], and gives their value. *)
Lemma _kstrtoull_spec (s : string) (v : Z) :
  _kstrtoull s 10 = inr v <->
  unsigned_text (chomp s) = Some v /\ v <= ULLONG_MAX.
Proof.
  rewrite unsigned_text_digits. unfold _kstrtoull. split.
  - destruct (digits_span s) as (ds & rest & -> & Hds & Hrest).
    destruct (parse_integer_digits ds rest Hds Hrest 0 0%nat false 0)
      as (res' & ovf' & -> & Hres' & Hinv); [lia | reflexivity |].
    simpl (0 + _)%nat.
    destruct ovf'; [discriminate|].
    destruct ds as [|c ds]; [discriminate|].
    set (d := String c ds) in *. simpl (Nat.eqb _ _).
    rewrite drop_app.
    assert (Hend : rest = "" \/ rest = String LF "" -> chomp (d +:+ rest) = d).
    { intros [-> | ->]; [rewrite app_empty_r; now apply chomp_digits | apply chomp_app_LF]. }
    unfold skip_char. destruct rest as [|c' rest].
    + intros [= <-]. rewrite Hend by auto. unfold ULLONG_MAX. repeat split; [discriminate | trivial | trivial | lia].
    + destruct (Ascii.eqb_spec c' LF) as [-> |]; [|discriminate].
      destruct rest; [|discriminate].
      intros [= <-]. rewrite Hend by auto. unfold ULLONG_MAX. repeat split; [discriminate | trivial | trivial | lia].
  - intros ((Hne & Hds & ->) & Hmax).
    set (ds := chomp s) in *.
    assert (Hs : exists rest, s = ds +:+ rest /\ (rest = "" \/ rest = String LF "")).
    { destruct (chomp_cases s) as [E | E]; fold ds in E.
      - exists "". rewrite app_empty_r. auto.
      - exists (String LF ""). auto. }
    destruct Hs as (rest & Es & Hrest). clearbody ds. subst s.
    destruct (parse_integer_digits ds rest Hds) with (res := 0) (rv := 0%nat) (ovf := false) (tv := 0)
      as (res' & ovf' & -> & Hres' & Hinv); [destruct Hrest as [-> | ->]; reflexivity | lia | reflexivity |].
    destruct ovf'; [unfold ULLONG_MAX in Hmax; lia|]. subst res'.
    simpl (0 + _)%nat. rewrite drop_app.
    destruct ds as [|c ds]; [contradiction|].
    simpl (Nat.eqb _ _).
    destruct Hrest as [-> | ->]; reflexivity.
Qed.

Lemma unsigned_text_nonneg (s : string) (v : Z) : unsigned_text s = Some v -> 0 <= v.
Proof.
  rewrite unsigned_text_digits. intros (_ & Hds & ->).
  now apply digits_value_ge.
Qed.

Lemma to_ll_small (z : Z) : - 2 ^ 63 <= z < 2 ^ 63 -> to_ll z = z.
Proof. intros H. unfold to_ll. rewrite Z.mod_small; lia. Qed.

Lemma to_ll_high (z : Z) : 2 ^ 63 <= z < 2 ^ 64 -> to_ll z = z - 2 ^ 64.
Proof.
  intros H. unfold to_ll.
  replace (z + 2 ^ 63) with ((z - 2 ^ 63) + 1 * 2 ^ 64) by lia.
  rewrite Z.mod_add, Z.mod_small; lia.
Qed.

Lemma to_ll_neg_high (z : Z) : 2 ^ 63 < z < 2 ^ 64 -> to_ll (- z) = 2 ^ 64 - z.
Proof.
  intros H. unfold to_ll.
  replace (- z + 2 ^ 63) with ((2 ^ 64 - z + 2 ^ 63) + (-1) * 2 ^ 64) by lia.
  rewrite Z.mod_add, Z.mod_small; lia.
Qed.

(** The refinement: [kstrtol(s, 10, &v)] returns 0 exactly when [s] is a
    decimal text whose value fits a [long], and then stores that value. *)
Theorem kstrtol_decimal_text (s : string) (v : Z) :
  kstrtol s 10 = inr v <->
  decimal_text s = Some v /\ LONG_MIN <= v <= LONG_MAX.
Proof.
  unfold kstrtol, kstrtoll, kstrtoull, decimal_text, LONG_MIN, LONG_MAX.
  destruct s as [|c s].
  - simpl. split; [discriminate | intros [[=] _]].
  - unfold skip_char at 1.
    destruct (Ascii.eqb_spec c "-") as [-> | Hminus].
    { rewrite chomp_cons by discriminate. simpl signed_text.
      destruct (_kstrtoull s 10) as [e | tmp] eqn:E.
      - split; [discriminate|]. intros [H Hr].
        destruct (unsigned_text (chomp s)) as [u|] eqn:Eu; [|discriminate].
        pose proof (unsigned_text_nonneg _ _ Eu) as Hu.
        destruct (Z.le_gt_cases u ULLONG_MAX) as [Hle | Hgt].
        + assert (_kstrtoull s 10 = inr u) by (apply _kstrtoull_spec; auto). congruence.
        + injection H as <-. unfold ULLONG_MAX in Hgt; lia.
      - apply _kstrtoull_spec in E as [Eu Hmax]. rewrite Eu. simpl.
        pose proof (unsigned_text_nonneg _ _ Eu) as Hu. unfold ULLONG_MAX in Hmax.
        destruct (Z.le_gt_cases tmp (2 ^ 63)) as [Hle | Hgt].
        + rewrite to_ll_small by lia.
          destruct (Z.ltb_spec 0 (- tmp)); [lia|].
          split; [intros [= <-]; split; [reflexivity | lia] | intros [[= <-] _]; reflexivity].
        + rewrite to_ll_neg_high by lia.
          destruct (Z.ltb_spec 0 (2 ^ 64 - tmp)); [|lia].
          split; [discriminate | intros [[= <-] ?]; lia]. }
    unfold skip_char.
    assert (Hplus : exists t, (if Ascii.eqb c "+" then t = s else t = String c s) /\
              signed_text (chomp (String c s)) = unsigned_text (chomp t)).
    { destruct (Ascii.eqb_spec c "+") as [-> | Hplus].
      - exists s. split; [reflexivity|]. rewrite chomp_cons by discriminate. reflexivity.
      - exists (String c s). split; [reflexivity|].
        destruct (chomp (String c s)) as [|c' r] eqn:Ec; [reflexivity|].
        assert (c' = c) as ->.
        { simpl in Ec. destruct s; [destruct (Ascii.eqb c LF)|]; congruence. }
        simpl. destruct (Ascii.eqb_spec c "-"); [contradiction|].
        destruct (Ascii.eqb_spec c "+"); [contradiction|]. reflexivity. }
    destruct Hplus as (t & Ht & ->).
    assert (Hcall : (if Ascii.eqb c "+" then _kstrtoull s 10 else _kstrtoull (String c s) 10)
                    = _kstrtoull t 10).
    { destruct (Ascii.eqb c "+"); now subst t. }
    replace (match (if Ascii.eqb c "+" then Some s else None) with
             | Some s' => _kstrtoull s' 10
             | None => _kstrtoull (String c s) 10
             end) with (_kstrtoull t 10)
      by (rewrite <- Hcall; destruct (Ascii.eqb c "+"); reflexivity).
    clear Ht Hcall.
    destruct (_kstrtoull t 10) as [e | tmp] eqn:E.
    + split; [discriminate|]. intros [Eu Hr].
      pose proof (unsigned_text_nonneg _ _ Eu) as Hu.
      assert (_kstrtoull t 10 = inr v) by (apply _kstrtoull_spec; unfold ULLONG_MAX; split; [trivial | lia]).
      congruence.
    + apply _kstrtoull_spec in E as [Eu Hmax]. rewrite Eu.
      pose proof (unsigned_text_nonneg _ _ Eu) as Hu. unfold ULLONG_MAX in Hmax.
      destruct (Z.lt_ge_cases tmp (2 ^ 63)) as [Hlt | Hge].
      * rewrite to_ll_small by lia.
        destruct (Z.ltb_spec tmp 0); [lia|].
        split; [intros [= <-]; split; [reflexivity | lia] | intros [[= <-] _]; reflexivity].
      * rewrite to_ll_high by lia.
        destruct (Z.ltb_spec (tmp - 2 ^ 64) 0); [|lia].
        split; [discriminate | intros [[= <-] ?]; lia].
Qed.

End KstrtoxFacts.

(** * Reads: [process_info_show] *)

Section Reads.
Context {cfg : KernelConfig}.
Variable k : kernel.
Import CInt CStr CStrFacts PrettyFacts.

Lemma four_lines (a b c d : string) :
  ((("" +:+ a) +:+ b) +:+ c) +:+ d = a +:+ b +:+ c +:+ d.
Proof. now rewrite app_nil, !app_assoc. Qed.

(** The text of a read, branch by branch. *)
Lemma read_text_no_selection (st : module_state) :
  requested_pid st <= 0 -> read_text k st = no_selection_line.
Proof. show_branches k st; try lia. reflexivity. Qed.

Lemma read_text_not_found (st : module_state) :
  0 < requested_pid st -> pid_task k (requested_pid st) = None ->
  read_text k st = not_found_line (requested_pid st).
Proof.
  intros Hpos Hnone. show_branches k st; try lia; try discriminate.
  unfold not_found_line. reflexivity.
Qed.

Lemma read_text_live (st : module_state) (task : task_struct) :
  0 < requested_pid st -> pid_task k (requested_pid st) = Some task ->
  exists exec_path cmdline,
    read_text k st =
    render (requested_pid st)
      {| ownerId := to_int (from_kuid_munged k (task_uid task));
         executablePath := exec_path;
         commandLineSummary := cmdline |}.
Proof.
  intros Hpos Hsome. show_branches k st; try lia; try discriminate;
    injection Hsome as ->; rewrite four_lines; unfold render;
    cbn [ownerId executablePath commandLineSummary];
    do 2 eexists; reflexivity.
Qed.

Lemma read_text_no_mm (st : module_state) (task : task_struct) :
  0 < requested_pid st -> pid_task k (requested_pid st) = Some task ->
  task_mm task = None ->
  read_text k st =
  render (requested_pid st)
    {| ownerId := to_int (from_kuid_munged k (task_uid task));
       executablePath := None;
       commandLineSummary := None |}.
Proof.
  intros Hpos Hsome Hnone. show_branches k st; try lia; try discriminate;
    injection Hsome as ->; try congruence.
  rewrite four_lines. reflexivity.
Qed.

Lemma read_status_zero (st : module_state) : read_status k st = 0.
Proof. show_branches k st; reflexivity. Qed.

Lemma render_not_empty (id : Z) (s : snapshot) : render id s <> "".
Proof. unfold render. rewrite !app_assoc. discriminate. Qed.

(** C5, as the module has it: for a read resolving a live process that has
    no memory-map handle ([get_task_mm] returns nothing), the output
    reports the owner id of the process and "Unknown" for both the
    executable path and the command line. *)
Theorem read_without_address_space (st : module_state) (task : task_struct) :
  0 < requested_pid st -> pid_task k (requested_pid st) = Some task ->
  task_mm task = None ->
  read_text k st =
  ("PID: " +:+ pretty (requested_pid st) +:+ endl) +:+
  ("UID: " +:+ pretty (to_int (from_kuid_munged k (task_uid task))) +:+ endl) +:+
  ("Executable: " +:+ "Unknown" +:+ endl) +:+
  ("Command line: " +:+ "Unknown" +:+ endl).
Proof. apply read_text_no_mm. Qed.

(** C8: On every execution path of a read, each memory-map handle
    acquisition is paired with exactly one release before the query
    completes (including error and early-exit paths), and the memory-map
    scoped lock, once acquired, is released before the extraction returns
    on every path including path-resolution failure.  The last part of the
    statement says that the lock is given up before the handle under which
    it was taken. *)
Theorem read_releases_handles_and_locks (st : module_state) :
  Trace.mm_refs 0 (read_trace k st) = Some 0%nat /\
  Trace.mmap_locks 0 (read_trace k st) = Some 0%nat /\
  Trace.nested [] (read_trace k st) = Some [].
Proof. show_branches k st; repeat split; reflexivity. Qed.

(** The calls of a read are strictly nested: table guard, then handle,
    then lock, each given up in reverse order. *)
Lemma read_trace_nested (st : module_state) :
  Trace.nested [] (read_trace k st) = Some [].
Proof. show_branches k st; reflexivity. Qed.

(** C9 fails on the module: a read that finds a process with an address
    space allocates with [GFP_KERNEL] while it holds the RCU read lock, so
    the table guard is held across an allocation that may block, and across
    calls that may sleep. *)
Theorem read_sleeps_under_table_guard (st : module_state) (task : task_struct)
    (mm : mm_struct) :
  0 < requested_pid st -> pid_task k (requested_pid st) = Some task ->
  task_mm task = Some mm ->
  Trace.in_rcu Trace.blocking_alloc 0 (read_trace k st) = true /\
  Trace.in_rcu Trace.may_sleep 0 (read_trace k st) = true.
Proof.
  intros Hpos Hsome Hmm. show_branches k st; try lia; try discriminate;
    injection Hsome as ->; try congruence; split; reflexivity.
Qed.

End Reads.

(** * The command-line summary *)

Section Summary.
Context {cfg : KernelConfig}.
Variable k : kernel.
Import CInt CStr CStrFacts PrettyFacts.

Lemma to_int_small (z : Z) : - 2 ^ 31 <= z < 2 ^ 31 -> to_int z = z.
Proof. intros H. unfold to_int. rewrite Z.mod_small; lia. Qed.

Lemma to_int_range (z : Z) : - 2 ^ 31 <= to_int z < 2 ^ 31.
Proof. unfold to_int. pose proof (Z.mod_pos_bound (z + 2 ^ 31) (2 ^ 32)). lia. Qed.

Lemma length_cmdline_length_text (n : Z) :
  String.length (cmdline_length_text n) = (56 + String.length (pretty n))%nat.
Proof.
  unfold cmdline_length_text. rewrite !length_app.
  change (String.length "[командная строка длиной ") with 46%nat.
  change (String.length " байт]") with 10%nat. lia.
Qed.

Lemma length_no_cmdline_text : String.length no_cmdline_text = 56%nat.
Proof. reflexivity. Qed.

(** The summary fits the working buffer with room to spare. *)
Lemma length_argument_summary (mm : mm_struct) :
  4096 <= PAGE_SIZE <= INT_MAX ->
  (String.length (argument_summary mm) <= 67)%nat.
Proof.
  intros Hpage. unfold argument_summary, INT_MAX in *.
  destruct (arg_start mm <? arg_end mm).
  - rewrite length_cmdline_length_text.
    pose proof (to_int_range (to_ull (arg_end mm - arg_start mm))).
    pose proof (pretty_int_length
      (Z.min (to_int (to_ull (arg_end mm - arg_start mm))) (PAGE_SIZE - 2))). lia.
  - rewrite length_no_cmdline_text. lia.
Qed.

(** What [read_cmdline] leaves in the buffer of a process with an address
    space, and what it returns. *)
Lemma read_cmdline_summary (task : task_struct) (mm : mm_struct) (buf : string)
    (s : call_state) :
  4096 <= PAGE_SIZE <= INT_MAX ->
  task_mm task = Some mm ->
  read_cmdline (Some task) (Some buf) (to_int (PAGE_SIZE - 1)) s =
  (strlen (argument_summary mm), Some (argument_summary mm),
   {| cs_trace := (cs_trace s ++ [EvMmGet]) ++ [EvMmPut];
      cs_allocs := cs_allocs s;
      cs_out := cs_out s |}).
Proof.
  intros Hpage Hmm.
  pose proof (length_argument_summary mm Hpage) as Hlen.
  unfold INT_MAX in Hpage.
  unfold read_cmdline, get_task_mm. rewrite Hmm.
  unfold bind, ret, mmput, emit. cbn [cs_trace cs_allocs cs_out].
  rewrite (to_int_small (PAGE_SIZE - 1)) by lia.
  assert (E : (if arg_start mm <? arg_end mm
               then snprintf (PAGE_SIZE - 1)
                      (cmdline_length_text
                         (if PAGE_SIZE - 1 - 1 <? to_int (to_ull (arg_end mm - arg_start mm))
                          then PAGE_SIZE - 1 - 1
                          else to_int (to_ull (arg_end mm - arg_start mm))))
               else strscpy no_cmdline_text (PAGE_SIZE - 1)) = argument_summary mm).
  { unfold argument_summary in *. unfold snprintf, strscpy.
    destruct (arg_start mm <? arg_end mm).
    - replace (if PAGE_SIZE - 1 - 1 <? to_int (to_ull (arg_end mm - arg_start mm))
               then PAGE_SIZE - 1 - 1
               else to_int (to_ull (arg_end mm - arg_start mm)))
        with (Z.min (to_int (to_ull (arg_end mm - arg_start mm))) (PAGE_SIZE - 2)).
      + apply take_all. lia.
      + destruct (Z.ltb_spec (PAGE_SIZE - 1 - 1) (to_int (to_ull (arg_end mm - arg_start mm)))); lia.
    - apply take_all. lia. }
  rewrite E. rewrite to_int_small by (unfold strlen; lia). reflexivity.
Qed.

(** Terminating the buffer at the reported length and copying it with
    the bound of the page change nothing. *)
Lemma cmdline_copy (text : string) :
  4096 <= PAGE_SIZE -> (String.length text <= 67)%nat ->
  strncpy_terminated
    (set_nul text (if 0 <? strlen text then strlen text else 0)) (PAGE_SIZE - 1) = text.
Proof.
  intros Hpage Hlen. unfold strncpy_terminated, set_nul, strlen.
  assert (E : take (Z.to_nat (if 0 <? Z.of_nat (String.length text)
                              then Z.of_nat (String.length text) else 0)) text = text).
  { apply take_all. destruct (Z.ltb_spec 0 (Z.of_nat (String.length text))); lia. }
  rewrite E. apply take_all. lia.
Qed.

Lemma read_text_mm (st : module_state) (task : task_struct) (mm : mm_struct) :
  4096 <= PAGE_SIZE <= INT_MAX ->
  0 < requested_pid st -> pid_task k (requested_pid st) = Some task ->
  task_mm task = Some mm ->
  read_text k st =
  render (requested_pid st)
    {| ownerId := to_int (from_kuid_munged k (task_uid task));
       executablePath := executable_field (kmalloc_oracle k 0) mm;
       commandLineSummary :=
         command_line_field (kmalloc_oracle k 1) (kmalloc_oracle k 2) mm |}.
Proof.
  intros Hpage Hpos Hsome Hmm.
  pose proof (length_argument_summary mm Hpage) as Hlen.
  pose proof (fun buf s => read_cmdline_summary task mm buf s Hpage Hmm) as Hread.
  unfold read_text, process_info_show.
  destruct (Z.leb_spec (requested_pid st) 0) as [|_]; [lia|].
  rewrite Hsome. unfold get_task_mm at 1. rewrite Hmm.
  destruct (kmalloc_oracle k 0) as [b0|] eqn:E0;
    destruct (kmalloc_oracle k 1) as [b1|] eqn:E1;
    destruct (kmalloc_oracle k 2) as [b2|] eqn:E2;
    unfold bind, ret, rcu_read_lock, rcu_read_unlock, down_read, up_read,
      mmput, kfree, emit, seq_printf, kmalloc, call_start;
    repeat (cbn [cs_trace cs_allocs cs_out app fst snd buf_ptr buf_text store];
            rewrite ?E0, ?E1, ?E2, ?Hread);
    rewrite four_lines; unfold render, executable_field, command_line_field;
    cbn [ownerId executablePath commandLineSummary default id fmap option_fmap option_map
         buf_ptr buf_text store];
    rewrite ?cmdline_copy by (trivial; lia); reflexivity.
Qed.

(** C6, as the module has it: for the command-line sub-extraction of a
    process with a memory-map handle, on a kernel whose page has at least
    4096 bytes: if the argument region is non-empty and its length fits an
    [int], the result is the placeholder string encoding that length capped
    at [PAGE_SIZE - 2]; if the region is empty the result is the fixed "no
    data" marker; the field of the report is this result when both working
    buffers are allocated and absent otherwise; in all cases the length of
    the result is at most [PAGE_SIZE - 1]. *)
Theorem command_line_summary (st : module_state) (task : task_struct) (mm : mm_struct) :
  4096 <= PAGE_SIZE <= INT_MAX ->
  0 < requested_pid st -> pid_task k (requested_pid st) = Some task ->
  task_mm task = Some mm ->
  (arg_start mm < arg_end mm -> arg_end mm - arg_start mm <= INT_MAX ->
     argument_summary mm =
     cmdline_length_text (Z.min (arg_end mm - arg_start mm) (PAGE_SIZE - 2))) /\
  (arg_end mm <= arg_start mm -> argument_summary mm = no_cmdline_text) /\
  (forall buf s,
     fst (read_cmdline (Some task) (Some buf) (to_int (PAGE_SIZE - 1)) s) =
     (strlen (argument_summary mm), Some (argument_summary mm))) /\
  read_text k st =
    render (requested_pid st)
      {| ownerId := to_int (from_kuid_munged k (task_uid task));
         executablePath := executable_field (kmalloc_oracle k 0) mm;
         commandLineSummary :=
           match kmalloc_oracle k 1, kmalloc_oracle k 2 with
           | Some _, Some _ => Some (argument_summary mm)
           | _, _ => None
           end |} /\
  strlen (argument_summary mm) <= PAGE_SIZE - 1.
Proof.
  intros Hpage Hpos Hsome Hmm. repeat split.
  - intros Hne Hfit. unfold argument_summary, INT_MAX in *.
    destruct (Z.ltb_spec (arg_start mm) (arg_end mm)); [|lia].
    unfold to_ull. rewrite Z.mod_small by lia. rewrite to_int_small by lia. reflexivity.
  - intros He. unfold argument_summary.
    destruct (Z.ltb_spec (arg_start mm) (arg_end mm)); [lia | reflexivity].
  - intros buf s. rewrite (read_cmdline_summary task mm) by trivial. reflexivity.
  - apply read_text_mm; trivial.
  - pose proof (length_argument_summary mm Hpage). unfold strlen. lia.
Qed.

End Summary.

(** * The report as a whole *)

Section Report.
Context {cfg : KernelConfig}.
Variable k : kernel.
Import CInt CStr CStrFacts PrettyFacts.

Lemma line_feeds_app (a b : string) :
  line_feeds (a +:+ b) = (line_feeds a + line_feeds b)%nat.
Proof.
  induction a as [|c a IH]; [reflexivity|].
  rewrite app_cons. simpl. rewrite IH. lia.
Qed.

Lemma line_feeds_none (s : string) :
  forallb (not_char LF) s = true -> line_feeds s = 0%nat.
Proof.
  induction s as [|c s IH]; [reflexivity|]. simpl. unfold not_char at 1.
  rewrite andb_true_iff, negb_true_iff. intros [-> Hs]. now rewrite IH.
Qed.

Lemma line_feeds_pretty (z : Z) : line_feeds (pretty z) = 0%nat.
Proof. apply line_feeds_none, pretty_Z_no_LF. Qed.

Lemma line_feeds_argument_summary (mm : mm_struct) :
  line_feeds (argument_summary mm) = 0%nat.
Proof.
  unfold argument_summary, cmdline_length_text.
  destruct (arg_start mm <? arg_end mm); [|reflexivity].
  rewrite !line_feeds_app, line_feeds_pretty. reflexivity.
Qed.

Lemma line_feeds_no_selection : line_feeds no_selection_line = 1%nat.
Proof. reflexivity. Qed.

Lemma line_feeds_not_found (id : Z) : line_feeds (not_found_line id) = 1%nat.
Proof.
  unfold not_found_line. rewrite !line_feeds_app, line_feeds_pretty. reflexivity.
Qed.

(** The lines of a report: one for each of the four records, and one more
    for each line feed inside a field. *)
Lemma line_feeds_render (id : Z) (s : snapshot) :
  line_feeds (render id s) =
  (4 + line_feeds (default "Unknown" (executablePath s))
     + line_feeds (default "Unknown" (commandLineSummary s)))%nat.
Proof.
  unfold render. rewrite !line_feeds_app, !line_feeds_pretty.
  change (line_feeds endl) with 1%nat.
  change (line_feeds "PID: ") with 0%nat. change (line_feeds "UID: ") with 0%nat.
  change (line_feeds "Executable: ") with 0%nat.
  change (line_feeds "Command line: ") with 0%nat. lia.
Qed.

(** The text of a read that finds its process is the rendering of the
    snapshot of that process. *)
Lemma read_text_snapshot (st : module_state) (task : task_struct) :
  4096 <= PAGE_SIZE <= INT_MAX ->
  0 < requested_pid st -> pid_task k (requested_pid st) = Some task ->
  read_text k st = render (requested_pid st) (snapshot_of k task).
Proof.
  intros Hpage Hpos Hfind. unfold snapshot_of.
  destruct (task_mm task) as [mm|] eqn:Hmm.
  - now apply read_text_mm.
  - now apply read_text_no_mm.
Qed.

Lemma snapshot_executable_absent (task : task_struct) :
  executablePath (snapshot_of k task) = None <->
  task_mm task = None \/ kmalloc_oracle k 0 = None.
Proof.
  unfold snapshot_of, executable_field. cbn [executablePath].
  destruct (task_mm task) as [mm|]; [|tauto].
  destruct (kmalloc_oracle k 0); split; try tauto; try discriminate.
  intros [H | H]; discriminate H.
Qed.

Lemma snapshot_command_line_absent (task : task_struct) :
  commandLineSummary (snapshot_of k task) = None <->
  task_mm task = None \/ kmalloc_oracle k 1 = None \/ kmalloc_oracle k 2 = None.
Proof.
  unfold snapshot_of, command_line_field. cbn [commandLineSummary].
  destruct (task_mm task) as [mm|]; [|tauto].
  destruct (kmalloc_oracle k 1), (kmalloc_oracle k 2); split; try tauto; try discriminate;
    intros [H | [H | H]]; discriminate H.
Qed.

Lemma line_feeds_snapshot_command_line (task : task_struct) :
  line_feeds (default "Unknown" (commandLineSummary (snapshot_of k task))) = 0%nat.
Proof.
  unfold snapshot_of, command_line_field. cbn [commandLineSummary].
  destruct (task_mm task) as [mm|]; [|reflexivity].
  destruct (kmalloc_oracle k 1), (kmalloc_oracle k 2); try reflexivity.
  apply line_feeds_argument_summary.
Qed.

(** C1, as the module has it: for every read: if the current selection is
    non-positive, the output is the single line "No valid PID provided"; if
    no live process has the selected identifier, the output is the single
    line "Process with PID <id> not found" naming that identifier;
    otherwise (the page having at least 4096 bytes) the output is the four
    records PID, UID (owner id), Executable, Command line in that order,
    each ended by a line feed, with the literal "Unknown" substituted for
    any absent field.  The executable field is absent exactly when the
    process has no address space or the path buffer could not be
    allocated, the command-line field exactly when the process has no
    address space or one of its two buffers could not be allocated.  The
    output has four lines and one more for each line feed in the
    executable path it shows. *)
Theorem read_output_shape (st : module_state) :
  (requested_pid st <= 0 ->
     read_text k st = "No valid PID provided" +:+ endl /\
     line_feeds (read_text k st) = 1%nat) /\
  (0 < requested_pid st -> pid_task k (requested_pid st) = None ->
     read_text k st =
       "Process with PID " +:+ pretty (requested_pid st) +:+ " not found" +:+ endl /\
     line_feeds (read_text k st) = 1%nat) /\
  (0 < requested_pid st ->
     forall task, pid_task k (requested_pid st) = Some task ->
     4096 <= PAGE_SIZE <= INT_MAX ->
     read_text k st =
       ("PID: " +:+ pretty (requested_pid st) +:+ endl) +:+
       ("UID: " +:+ pretty (to_int (from_kuid_munged k (task_uid task))) +:+ endl) +:+
       ("Executable: " +:+
          default "Unknown" (executablePath (snapshot_of k task)) +:+ endl) +:+
       ("Command line: " +:+
          default "Unknown" (commandLineSummary (snapshot_of k task)) +:+ endl) /\
     (executablePath (snapshot_of k task) = None <->
        task_mm task = None \/ kmalloc_oracle k 0 = None) /\
     (commandLineSummary (snapshot_of k task) = None <->
        task_mm task = None \/ kmalloc_oracle k 1 = None \/ kmalloc_oracle k 2 = None) /\
     line_feeds (read_text k st) =
       (4 + line_feeds (default "" (executablePath (snapshot_of k task))))%nat).
Proof.
  split; [|split].
  - intros Hsel. rewrite read_text_no_selection by trivial. split; reflexivity.
  - intros Hpos Hnone. rewrite read_text_not_found by trivial.
    split; [reflexivity | apply line_feeds_not_found].
  - intros Hpos task Hfind Hpage.
    rewrite (read_text_snapshot st task) by trivial.
    split; [reflexivity|].
    split; [apply snapshot_executable_absent|].
    split; [apply snapshot_command_line_absent|].
    rewrite line_feeds_render, line_feeds_snapshot_command_line.
    destruct (executablePath (snapshot_of k task)); simpl; lia.
Qed.

(** C3: Every read call succeeds and returns some text: every failure mode
    reachable during a read (process not found, absent memory mappings,
    allocation failure for the path or command-line buffers,
    path-resolution failure) is absorbed into absent or placeholder field
    values and never surfaced to the reader as an error status.  The
    status is 0 and the text is not empty on every path; a process that is
    not found gives the not-found line; for a process that is found (the
    page having at least 4096 bytes) the text is the rendering of its
    snapshot, in which each failure leaves its field absent, printed as
    "Unknown", or holding the placeholder "Unknown". *)
Theorem read_always_succeeds (st : module_state) :
  read_status k st = 0 /\
  read_text k st <> "" /\
  (0 < requested_pid st -> pid_task k (requested_pid st) = None ->
     read_text k st = not_found_line (requested_pid st)) /\
  (0 < requested_pid st ->
     forall task, pid_task k (requested_pid st) = Some task ->
     4096 <= PAGE_SIZE <= INT_MAX ->
     read_text k st = render (requested_pid st) (snapshot_of k task) /\
     (task_mm task = None ->
        executablePath (snapshot_of k task) = None /\
        commandLineSummary (snapshot_of k task) = None) /\
     (kmalloc_oracle k 0 = None -> executablePath (snapshot_of k task) = None) /\
     (kmalloc_oracle k 1 = None \/ kmalloc_oracle k 2 = None ->
        commandLineSummary (snapshot_of k task) = None) /\
     (forall mm, task_mm task = Some mm -> kmalloc_oracle k 0 <> None ->
        exe_file mm = None \/
        (exists f e, exe_file mm = Some f /\ d_path f PATH_MAX = inl e) ->
        executablePath (snapshot_of k task) = Some "Unknown")).
Proof.
  split; [apply read_status_zero|]. split; [|split].
  - destruct (Z.le_gt_cases (requested_pid st) 0) as [Hsel | Hsel].
    + rewrite read_text_no_selection by trivial. discriminate.
    + destruct (pid_task k (requested_pid st)) as [task|] eqn:Hfind.
      * destruct (read_text_live k st task) as (e & c & ->); [lia | trivial |].
        apply render_not_empty.
      * rewrite read_text_not_found by (trivial; lia). discriminate.
  - apply read_text_not_found.
  - intros Hpos task Hfind Hpage.
    split; [now apply read_text_snapshot|].
    split; [|split; [|split]].
    + intros Hnone. split.
      * apply snapshot_executable_absent. now left.
      * apply snapshot_command_line_absent. now left.
    + intros Hfail. apply snapshot_executable_absent. now right.
    + intros Hfail. apply snapshot_command_line_absent. right. exact Hfail.
    + intros mm Hmm Halloc Hpath.
      unfold snapshot_of, executable_field. cbn [executablePath]. rewrite Hmm.
      destruct (kmalloc_oracle k 0); [|contradiction].
      destruct Hpath as [-> | (f & e & -> & ->)]; reflexivity.
Qed.

End Report.

(** * Writes: [process_info_write] *)

Module WriteFacts.
Import CInt CStr Decimal CStrFacts PrettyFacts KstrtoxFacts.

Lemma neg_errno_negative (e : errno) : neg_errno e < 0.
Proof. destruct e; reflexivity. Qed.

Lemma write_too_long (buffer : string) (len : N) (st : module_state) :
  (31 < len)%N -> process_info_write buffer len st = (neg_errno EINVAL, st).
Proof.
  intros H. unfold process_info_write.
  destruct (N.ltb_spec 31 len); [reflexivity | lia].
Qed.

Lemma write_fault (buffer : string) (len : N) (st : module_state) :
  (len <= 31)%N -> copy_from_user buffer len = None ->
  process_info_write buffer len st = (neg_errno EFAULT, st).
Proof.
  intros H Hcopy. unfold process_info_write.
  destruct (N.ltb_spec 31 len); [lia|]. now rewrite Hcopy.
Qed.

Lemma write_parsed (buffer : string) (len : N) (st : module_state) (payload : string) :
  (len <= 31)%N -> copy_from_user buffer len = Some payload ->
  process_info_write buffer len st =
  match Kstrtox.kstrtol (c_string payload) 10 with
  | inl _ => (neg_errno EINVAL, st)
  | inr pid_value => (Z.of_N len, {| requested_pid := to_int pid_value |})
  end.
Proof.
  intros H Hcopy. unfold process_info_write.
  destruct (N.ltb_spec 31 len); [lia|]. now rewrite Hcopy.
Qed.

Lemma kstrtol_rejects (s : string) :
  decimal_text s = None -> exists e, Kstrtox.kstrtol s 10 = inl e.
Proof.
  intros Hnone. destruct (Kstrtox.kstrtol s 10) as [e | v] eqn:E; [eauto|].
  apply kstrtol_decimal_text in E as [E _]. congruence.
Qed.

(** A decimal text holds no NUL, so it is the string its bytes hold. *)
Lemma digit_not_NUL (c : ascii) : is_digit c = true -> not_char NUL c = true.
Proof.
  unfold not_char. destruct (Ascii.eqb_spec c NUL) as [-> |]; [discriminate | reflexivity].
Qed.

Lemma unsigned_text_no_NUL (s : string) (v : Z) :
  unsigned_text s = Some v -> forallb (not_char NUL) s = true.
Proof.
  rewrite unsigned_text_digits. intros (_ & Hds & _).
  apply (forallb_impl is_digit); [apply digit_not_NUL | trivial].
Qed.

Lemma signed_text_no_NUL (s : string) (v : Z) :
  signed_text s = Some v -> forallb (not_char NUL) s = true.
Proof.
  unfold signed_text. destruct s as [|c r]; [discriminate|].
  destruct (Ascii.eqb_spec c "-") as [-> | _].
  - destruct (unsigned_text r) as [u|] eqn:E; [|discriminate].
    intros _. simpl. eapply unsigned_text_no_NUL; eauto.
  - destruct (Ascii.eqb_spec c "+") as [-> | _].
    + intros E. simpl. eapply unsigned_text_no_NUL; eauto.
    + apply unsigned_text_no_NUL.
Qed.

Lemma decimal_text_c_string (s : string) (v : Z) :
  decimal_text s = Some v -> c_string s = s.
Proof.
  unfold decimal_text. intros H. apply c_string_id.
  apply signed_text_no_NUL in H.
  destruct (chomp_cases s) as [E | E]; rewrite E; [trivial|].
  rewrite forallb_app, H. reflexivity.
Qed.

(** C2, as the module has it: a payload longer than 31 bytes fails with
    an invalid-argument error; a payload whose bytes up to the first NUL are
    no well-formed decimal integer fails with an invalid-argument error; a
    failure to copy the payload from the caller fails with an access-fault
    error; on success the write returns the number of bytes consumed and
    the parsed value, when it fits the 32 bits of a [pid_t], becomes the
    current selection. *)
Theorem write_outcomes (buffer : string) (len : N) (st : module_state) :
  ((31 < len)%N -> process_info_write buffer len st = (neg_errno EINVAL, st)) /\
  ((len <= 31)%N -> copy_from_user buffer len = None ->
     process_info_write buffer len st = (neg_errno EFAULT, st)) /\
  (forall payload, copy_from_user buffer len = Some payload ->
     decimal_text (c_string payload) = None ->
     process_info_write buffer len st = (neg_errno EINVAL, st)) /\
  (forall r st', process_info_write buffer len st = (r, st') -> 0 <= r ->
     r = Z.of_N len /\
     exists payload v,
       copy_from_user buffer len = Some payload /\
       decimal_text (c_string payload) = Some v /\
       (INT_MIN <= v <= INT_MAX -> requested_pid st' = v)).
Proof.
  split; [apply write_too_long|]. split; [apply write_fault|]. split.
  - intros payload Hcopy Hbad.
    destruct (N.ltb_spec 31 len) as [Hlong | Hshort]; [now apply write_too_long|].
    rewrite (write_parsed buffer len st payload) by trivial.
    destruct (kstrtol_rejects _ Hbad) as [e ->]. reflexivity.
  - intros r st' Hw Hr.
    pose proof (neg_errno_negative EINVAL) as Hinval.
    pose proof (neg_errno_negative EFAULT) as Hfault.
    destruct (N.ltb_spec 31 len) as [Hlong | Hshort].
    { rewrite write_too_long in Hw by trivial. injection Hw as <- <-. lia. }
    destruct (copy_from_user buffer len) as [payload|] eqn:Hcopy.
    2:{ rewrite write_fault in Hw by trivial. injection Hw as <- <-. lia. }
    rewrite (write_parsed buffer len st payload) in Hw by trivial.
    destruct (Kstrtox.kstrtol (c_string payload) 10) as [e | v] eqn:E.
    { injection Hw as <- <-. lia. }
    injection Hw as <- <-. split; [reflexivity|].
    apply kstrtol_decimal_text in E as [E _].
    exists payload, v. repeat split; trivial.
    unfold INT_MIN, INT_MAX. intros Hv. simpl. unfold to_int. rewrite Z.mod_small; lia.
Qed.

(** C4, as the module has it: for every write whose payload, read up to
    its first NUL, is non-numeric (the empty payload included), the write
    fails with an invalid-argument error and the selection keeps its prior
    value; a payload of at most 31 bytes that is a decimal integer at most
    zero, within the range of a [pid_t], is accepted and becomes the
    selection, and a later read then reports that no valid PID was
    provided. *)
Theorem write_non_numeric_or_non_positive `{KernelConfig} (k : kernel)
    (buffer : string) (len : N) (st : module_state) (payload : string) :
  copy_from_user buffer len = Some payload ->
  (decimal_text (c_string payload) = None ->
     process_info_write buffer len st = (neg_errno EINVAL, st)) /\
  (payload = "" -> process_info_write buffer len st = (neg_errno EINVAL, st)) /\
  (forall v, (len <= 31)%N -> decimal_text (c_string payload) = Some v ->
     INT_MIN <= v <= 0 ->
     process_info_write buffer len st = (Z.of_N len, {| requested_pid := v |}) /\
     read_text k (snd (process_info_write buffer len st)) =
       "No valid PID provided" +:+ endl).
Proof.
  intros Hcopy.
  assert (Hbad : decimal_text (c_string payload) = None ->
                 process_info_write buffer len st = (neg_errno EINVAL, st)).
  { intros Hbad.
    destruct (N.ltb_spec 31 len) as [Hlong | Hshort]; [now apply write_too_long|].
    rewrite (write_parsed buffer len st payload) by trivial.
    destruct (kstrtol_rejects _ Hbad) as [e ->]. reflexivity. }
  split; [exact Hbad|]. split.
  - intros ->. apply Hbad. reflexivity.
  - intros v Hshort Hv Hrange. unfold INT_MIN in Hrange.
    rewrite (write_parsed buffer len st payload) by trivial.
    assert (E : Kstrtox.kstrtol (c_string payload) 10 = inr v).
    { apply kstrtol_decimal_text. unfold LONG_MIN, LONG_MAX. split; [trivial | lia]. }
    rewrite E. unfold to_int. rewrite Z.mod_small by lia.
    replace (v + 2 ^ 31 - 2 ^ 31) with v by lia.
    split; [reflexivity|].
    apply (read_text_no_selection k). simpl. lia.
Qed.

End WriteFacts.

(** * A write followed by a read *)

Section WriteThenRead.
Context {cfg : KernelConfig}.
Variable k : kernel.
Import CInt CStr Decimal CStrFacts PrettyFacts KstrtoxFacts WriteFacts.

Lemma app_inj_r (c : string) : forall a b : string, a +:+ c = b +:+ c -> a = b.
Proof.
  assert (Hlen : forall x a, String x (a +:+ c) <> c).
  { intros x a E. apply (f_equal String.length) in E.
    simpl in E. rewrite length_app in E. lia. }
  induction a as [|x a IH]; intros [|y b] E.
  - reflexivity.
  - rewrite app_nil, app_cons in E. symmetry in E. now apply Hlen in E.
  - rewrite app_nil, app_cons in E. now apply Hlen in E.
  - rewrite !app_cons in E. injection E as -> E. f_equal. auto.
Qed.

Lemma first_line_render (id : Z) (s : snapshot) :
  first_line (render id s) = "PID: " +:+ pretty id.
Proof.
  unfold render, endl. rewrite !app_assoc.
  rewrite (app_cons LF ""), app_nil, <- (app_assoc "PID: " (pretty id)).
  apply first_line_app. rewrite forallb_app, pretty_Z_no_LF. reflexivity.
Qed.

Lemma first_line_not_found (id : Z) :
  first_line (not_found_line id) = "Process with PID " +:+ pretty id +:+ " not found".
Proof.
  unfold not_found_line, endl.
  rewrite <- (app_assoc (pretty id)), <- (app_assoc "Process with PID ").
  apply first_line_app.
  rewrite !forallb_app, pretty_Z_no_LF. reflexivity.
Qed.

(** A read with a positive selection names the selection. *)
Lemma read_names_selection (st : module_state) :
  0 < requested_pid st -> names_pid (read_text k st) (requested_pid st).
Proof.
  intros Hpos. unfold names_pid.
  destruct (pid_task k (requested_pid st)) as [task|] eqn:Hfind.
  - destruct (read_text_live k st task Hpos Hfind) as (e & c & ->).
    left. apply first_line_render.
  - rewrite (read_text_not_found k st) by trivial.
    right. apply first_line_not_found.
Qed.

(** A read names no identifier but the selection. *)
Lemma read_names_only_selection (st : module_state) (id : Z) :
  names_pid (read_text k st) id -> 0 < requested_pid st /\ id = requested_pid st.
Proof.
  unfold names_pid. intros H.
  destruct (Z.le_gt_cases (requested_pid st) 0) as [Hsel | Hsel].
  - rewrite (read_text_no_selection k st) in H by trivial.
    change (first_line no_selection_line) with "No valid PID provided" in H.
    destruct H as [E | E]; discriminate E.
  - split; [lia|].
    destruct (pid_task k (requested_pid st)) as [task|] eqn:Hfind.
    + destruct (read_text_live k st task) as (e & c & Ht); [lia | trivial |].
      rewrite Ht, first_line_render in H. destruct H as [E | E].
      * apply String.app_inj in E. now apply pretty_Z_inj in E.
      * discriminate E.
    + rewrite (read_text_not_found k st), first_line_not_found in H by (trivial; lia).
      destruct H as [E | E].
      * discriminate E.
      * apply String.app_inj, app_inj_r in E. now apply pretty_Z_inj in E.
Qed.

(** C7, as the module has it: for every valid positive-integer write
    payload of at most 31 bytes whose value is at most [INT_MAX], the write
    succeeds and a subsequent read (with no intervening write) reflects
    that exact identifier in its first output line. *)
Theorem write_then_read_names_pid (buffer : string) (len : N) (st : module_state)
    (payload : string) (v : Z) :
  (len <= 31)%N -> copy_from_user buffer len = Some payload ->
  decimal_text payload = Some v -> 0 < v <= INT_MAX ->
  exists st',
    process_info_write buffer len st = (Z.of_N len, st') /\
    requested_pid st' = v /\
    names_pid (read_text k st') v.
Proof.
  intros Hshort Hcopy Hv Hrange. unfold INT_MAX in Hrange.
  exists {| requested_pid := v |}.
  rewrite (write_parsed buffer len st payload) by trivial.
  rewrite (decimal_text_c_string payload v) by trivial.
  assert (E : Kstrtox.kstrtol payload 10 = inr v).
  { apply kstrtol_decimal_text. unfold LONG_MIN, LONG_MAX. split; [trivial | lia]. }
  rewrite E, to_int_small by lia.
  repeat split. now apply (read_names_selection {| requested_pid := v |}).
Qed.

(** C10, as the module has it: for every write payload of at most 31 bytes
    parsing to a decimal value that fits in a signed long but lies outside
    the signed 32-bit pid range, the write succeeds and the stored
    selection equals the parsed value truncated to 32 bits (interpreted as
    a signed [pid_t]), which differs from the value written; a subsequent
    read names the truncated identifier when it is positive, reports that
    no valid PID was provided otherwise, and never names the identifier
    written. *)
Theorem write_truncates_to_pid_t (buffer : string) (len : N) (st : module_state)
    (payload : string) (v : Z) :
  (len <= 31)%N -> copy_from_user buffer len = Some payload ->
  decimal_text payload = Some v -> LONG_MIN <= v <= LONG_MAX ->
  v < INT_MIN \/ INT_MAX < v ->
  process_info_write buffer len st = (Z.of_N len, {| requested_pid := to_int v |}) /\
  to_int v <> v /\
  (0 < to_int v -> names_pid (read_text k {| requested_pid := to_int v |}) (to_int v)) /\
  (to_int v <= 0 ->
     read_text k {| requested_pid := to_int v |} = "No valid PID provided" +:+ endl) /\
  ~ names_pid (read_text k {| requested_pid := to_int v |}) v.
Proof.
  intros Hshort Hcopy Hv Hlong Hout.
  assert (Hne : to_int v <> v).
  { pose proof (to_int_range v). unfold INT_MIN, INT_MAX in Hout. lia. }
  split; [|split; [exact Hne | split; [|split]]].
  - rewrite (write_parsed buffer len st payload) by trivial.
    rewrite (decimal_text_c_string payload v) by trivial.
    assert (E : Kstrtox.kstrtol payload 10 = inr v) by (apply kstrtol_decimal_text; auto).
    now rewrite E.
  - intros Hpos. now apply (read_names_selection {| requested_pid := to_int v |}).
  - intros Hsel. now apply (read_text_no_selection k {| requested_pid := to_int v |}).
  - intros Hnames. apply read_names_only_selection in Hnames as [_ Hnames].
    simpl in Hnames. congruence.
Qed.

End WriteThenRead.

(** * The theorems at work on the demo system *)

Module Scenarios.
Import CInt CStr Decimal Demo WriteFacts.

(** The kernel calls of a read of PID 1: both buffers of the page size and
    the path buffer are allocated, and [read_cmdline] takes its own
    reference on the address space, all inside the RCU section. *)
Example read_trace_of_init :
  read_trace (cfg := x86_64) system (selected 1) =
  [EvRcuReadLock; EvMmGet; EvKmalloc 4096 GFP_KERNEL (Some 0%nat); EvDownRead; EvUpRead;
   EvKmalloc 4096 GFP_KERNEL (Some 1%nat); EvKmalloc 4096 GFP_KERNEL (Some 2%nat);
   EvMmGet; EvMmPut; EvKfree 1; EvMmPut; EvKfree 0; EvKfree 2; EvRcuReadUnlock].
Proof. vm_compute. reflexivity. Qed.

(** The report on PID 701, whose argument block is empty. *)
Example read_text_of_bare_task :
  read_text (cfg := x86_64) system (selected 701) =
  ("PID: 701" +:+ endl) +:+ ("UID: 1000" +:+ endl) +:+
  ("Executable: Unknown" +:+ endl) +:+
  ("Command line: " +:+ no_cmdline_text +:+ endl).
Proof. vm_compute. reflexivity. Qed.

Lemma read_output_shape_witness :
  (requested_pid (selected 0) <= 0 /\
   read_text (cfg := x86_64) system (selected 0) = "No valid PID provided" +:+ endl) /\
  (0 < requested_pid (selected 5) /\ pid_task system 5 = None /\
   read_text (cfg := x86_64) system (selected 5) =
   "Process with PID " +:+ pretty 5 +:+ " not found" +:+ endl) /\
  (0 < requested_pid (selected 1) /\ pid_task system 1 = Some init_task /\
   4096 <= PAGE_SIZE (KernelConfig := x86_64) <= INT_MAX /\
   read_text (cfg := x86_64) system (selected 1) =
     ("PID: 1" +:+ endl) +:+ ("UID: 0" +:+ endl) +:+
     ("Executable: /sbin/init" +:+ endl) +:+
     ("Command line: " +:+ cmdline_length_text 11 +:+ endl) /\
   line_feeds (read_text (cfg := x86_64) system (selected 1)) = 4%nat).
Proof.
  pose proof (read_output_shape (cfg := x86_64) system) as H.
  split; [|split].
  - assert (Hsel : requested_pid (selected 0) <= 0) by (simpl; lia).
    split; [exact Hsel | exact (proj1 (proj1 (H (selected 0)) Hsel))].
  - assert (Hsel : 0 < requested_pid (selected 5)) by (simpl; lia).
    assert (Hnone : pid_task system (requested_pid (selected 5)) = None) by reflexivity.
    split; [exact Hsel | split; [exact Hnone |]].
    exact (proj1 (proj1 (proj2 (H (selected 5))) Hsel Hnone)).
  - assert (Hsel : 0 < requested_pid (selected 1)) by (simpl; lia).
    assert (Hsome : pid_task system (requested_pid (selected 1)) = Some init_task) by reflexivity.
    assert (Hpage : 4096 <= PAGE_SIZE (KernelConfig := x86_64) <= INT_MAX)
      by (vm_compute; split; discriminate).
    split; [exact Hsel | split; [exact Hsome | split; [exact Hpage |]]].
    destruct (proj2 (proj2 (H (selected 1))) Hsel init_task Hsome Hpage)
      as (Htext & _ & _ & Hlines).
    split; [rewrite Htext | rewrite Hlines]; vm_compute; reflexivity.
Defined.

(** C1 fails on the module: the executable of PID 950 has a line feed in
    its file name, and the report on it has five lines, the fourth of which
    is the rest of the name. *)
Lemma read_output_shape_counterexample :
  pid_task MoreDemo.odd_system 950 = Some MoreDemo.odd_task /\
  read_text (cfg := x86_64) MoreDemo.odd_system (selected 950) =
    ("PID: 950" +:+ endl) +:+ ("UID: 1000" +:+ endl) +:+
    ("Executable: /tmp/odd" +:+ endl) +:+ ("name" +:+ endl) +:+
    ("Command line: " +:+ cmdline_length_text 9 +:+ endl) /\
  line_feeds (read_text (cfg := x86_64) MoreDemo.odd_system (selected 950)) = 5%nat.
Proof. repeat split; vm_compute; reflexivity. Qed.

Lemma read_always_succeeds_witness :
  0 < requested_pid (selected 900) /\
  pid_task MoreDemo.system 900 = Some MoreDemo.far_task /\
  4096 <= PAGE_SIZE (KernelConfig := x86_64) <= INT_MAX /\
  kmalloc_oracle MoreDemo.system 1 = None /\
  read_status (cfg := x86_64) MoreDemo.system (selected 900) = 0 /\
  read_text (cfg := x86_64) MoreDemo.system (selected 900) =
    ("PID: 900" +:+ endl) +:+ ("UID: -2" +:+ endl) +:+
    ("Executable: Unknown" +:+ endl) +:+ ("Command line: Unknown" +:+ endl) /\
  commandLineSummary (snapshot_of (H := x86_64) MoreDemo.system MoreDemo.far_task) = None.
Proof.
  assert (Hsel : 0 < requested_pid (selected 900)) by (simpl; lia).
  assert (Hsome : pid_task MoreDemo.system (requested_pid (selected 900)) = Some MoreDemo.far_task)
    by reflexivity.
  assert (Hpage : 4096 <= PAGE_SIZE (KernelConfig := x86_64) <= INT_MAX)
    by (vm_compute; split; discriminate).
  assert (Hfail : kmalloc_oracle MoreDemo.system 1 = None) by reflexivity.
  destruct (read_always_succeeds (cfg := x86_64) MoreDemo.system (selected 900))
    as (Hstatus & _ & _ & Hlive).
  destruct (Hlive Hsel MoreDemo.far_task Hsome Hpage) as (Htext & _ & _ & Hcmd & _).
  split; [exact Hsel | split; [exact Hsome | split; [exact Hpage | split; [exact Hfail |]]]].
  split; [exact Hstatus | split; [| exact (Hcmd (or_introl Hfail))]].
  rewrite Htext. vm_compute. reflexivity.
Defined.

Lemma read_without_address_space_witness :
  0 < requested_pid (selected 2) /\ pid_task system 2 = Some kthreadd /\
  task_mm kthreadd = None /\
  read_text (cfg := x86_64) system (selected 2) =
  ("PID: " +:+ pretty 2 +:+ endl) +:+
  ("UID: " +:+ pretty 0 +:+ endl) +:+
  ("Executable: " +:+ "Unknown" +:+ endl) +:+
  ("Command line: " +:+ "Unknown" +:+ endl).
Proof.
  assert (Hsel : 0 < requested_pid (selected 2)) by (simpl; lia).
  assert (Hsome : pid_task system (requested_pid (selected 2)) = Some kthreadd) by reflexivity.
  assert (Hmm : task_mm kthreadd = None) by reflexivity.
  split; [exact Hsel | split; [exact Hsome | split; [exact Hmm |]]].
  exact (read_without_address_space (cfg := x86_64) system (selected 2) kthreadd Hsel Hsome Hmm).
Defined.

(** C5 fails on the module: PID 2 has no address space, and its report
    says "Unknown" in the command-line field, not the "no data" marker that
    [read_cmdline] writes for an empty argument block. *)
Lemma read_without_address_space_counterexample :
  pid_task system 2 = Some kthreadd /\ task_mm kthreadd = None /\
  read_text (cfg := x86_64) system (selected 2) =
    ("PID: 2" +:+ endl) +:+ ("UID: 0" +:+ endl) +:+
    ("Executable: Unknown" +:+ endl) +:+ ("Command line: Unknown" +:+ endl) /\
  read_text (cfg := x86_64) system (selected 2) <>
    ("PID: 2" +:+ endl) +:+ ("UID: 0" +:+ endl) +:+
    ("Executable: Unknown" +:+ endl) +:+ ("Command line: " +:+ no_cmdline_text +:+ endl).
Proof.
  split; [reflexivity | split; [reflexivity | split]].
  - vm_compute. reflexivity.
  - vm_compute. discriminate.
Qed.

Lemma command_line_summary_witness :
  4096 <= PAGE_SIZE (KernelConfig := x86_64) <= INT_MAX /\
  0 < requested_pid (selected 1) /\ pid_task system 1 = Some init_task /\
  task_mm init_task =
    Some {| arg_start := 140737488350000; arg_end := 140737488350011;
            exe_file := Some {| f_path := "/sbin/init" |} |} /\
  read_text (cfg := x86_64) system (selected 1) =
    ("PID: 1" +:+ endl) +:+ ("UID: 0" +:+ endl) +:+
    ("Executable: /sbin/init" +:+ endl) +:+
    ("Command line: " +:+ cmdline_length_text 11 +:+ endl).
Proof.
  assert (Hpage : 4096 <= PAGE_SIZE (KernelConfig := x86_64) <= INT_MAX) by (vm_compute; split; discriminate).
  assert (Hsel : 0 < requested_pid (selected 1)) by (simpl; lia).
  assert (Hsome : pid_task system (requested_pid (selected 1)) = Some init_task) by reflexivity.
  split; [exact Hpage | split; [exact Hsel | split; [exact Hsome | split; [reflexivity|]]]].
  destruct (command_line_summary (cfg := x86_64) system (selected 1) init_task _ Hpage Hsel Hsome eq_refl)
    as (_ & _ & _ & H & _).
  rewrite H. vm_compute. reflexivity.
Defined.

(** C6 fails on the module: PID 700 has 5000 bytes of arguments, and its
    report gives the length as 4094. *)
Lemma command_line_summary_counterexample :
  pid_task system 700 = Some cc_task /\
  (exists mm, task_mm cc_task = Some mm /\ arg_end mm - arg_start mm = 5000) /\
  read_text (cfg := x86_64) system (selected 700) =
    ("PID: 700" +:+ endl) +:+ ("UID: 1000" +:+ endl) +:+
    ("Executable: /usr/bin/cc" +:+ endl) +:+
    ("Command line: " +:+ cmdline_length_text 4094 +:+ endl) /\
  read_text (cfg := x86_64) system (selected 700) <>
    ("PID: 700" +:+ endl) +:+ ("UID: 1000" +:+ endl) +:+
    ("Executable: /usr/bin/cc" +:+ endl) +:+
    ("Command line: " +:+ cmdline_length_text 5000 +:+ endl).
Proof.
  split; [reflexivity | split; [eexists; split; reflexivity | split]].
  - vm_compute. reflexivity.
  - vm_compute. discriminate.
Qed.

Lemma read_sleeps_under_table_guard_witness :
  0 < requested_pid (selected 1) /\ pid_task system 1 = Some init_task /\
  is_Some (task_mm init_task) /\
  Trace.in_rcu Trace.blocking_alloc 0 (read_trace (cfg := x86_64) system (selected 1)) = true /\
  Trace.in_rcu Trace.may_sleep 0 (read_trace (cfg := x86_64) system (selected 1)) = true.
Proof.
  assert (Hsel : 0 < requested_pid (selected 1)) by (simpl; lia).
  assert (Hsome : pid_task system (requested_pid (selected 1)) = Some init_task) by reflexivity.
  split; [exact Hsel | split; [exact Hsome | split; [eexists; reflexivity|]]].
  exact (read_sleeps_under_table_guard (cfg := x86_64) system (selected 1) init_task _ Hsel Hsome eq_refl).
Defined.

Lemma write_outcomes_witness :
  ((31 < 32)%N /\
   process_info_write padded_text 32 module_init_state = (neg_errno EINVAL, module_init_state)) /\
  ((4 <= 31)%N /\ copy_from_user "12" 4 = None /\
   process_info_write "12" 4 module_init_state = (neg_errno EFAULT, module_init_state)) /\
  (copy_from_user "12a" 3 = Some "12a" /\ decimal_text (c_string "12a") = None /\
   process_info_write "12a" 3 module_init_state = (neg_errno EINVAL, module_init_state)) /\
  (process_info_write "700" 3 module_init_state = (3, selected 700) /\ 0 <= 3 /\
   exists payload v,
     copy_from_user "700" 3 = Some payload /\
     decimal_text (c_string payload) = Some v /\
     (INT_MIN <= v <= INT_MAX -> requested_pid (selected 700) = v)).
Proof.
  split; [|split; [|split]].
  - assert (H : (31 < 32)%N) by reflexivity.
    split; [exact H | exact (proj1 (write_outcomes padded_text 32 module_init_state) H)].
  - assert (H : (4 <= 31)%N) by discriminate.
    assert (Hcopy : copy_from_user "12" 4 = None) by reflexivity.
    split; [exact H | split; [exact Hcopy |]].
    exact (proj1 (proj2 (write_outcomes "12" 4 module_init_state)) H Hcopy).
  - assert (Hcopy : copy_from_user "12a" 3 = Some "12a") by reflexivity.
    assert (Hbad : decimal_text (c_string "12a") = None) by reflexivity.
    split; [exact Hcopy | split; [exact Hbad |]].
    exact (proj1 (proj2 (proj2 (write_outcomes "12a" 3 module_init_state))) "12a" Hcopy Hbad).
  - assert (Hw : process_info_write "700" 3 module_init_state = (3, selected 700))
      by (vm_compute; reflexivity).
    assert (Hr : 0 <= 3) by lia.
    split; [exact Hw | split; [exact Hr |]].
    exact (proj2 (proj2 (proj2 (proj2 (write_outcomes "700" 3 module_init_state)))
                    3 (selected 700) Hw Hr)).
Defined.

(** C2 fails on the module: the ten bytes "4294967297" are accepted and
    select PID 1, not the parsed value; and the six bytes [1 2 NUL a b c],
    which are no decimal integer, are accepted and select PID 12. *)
Lemma write_outcomes_counterexample :
  (decimal_text "4294967297" = Some 4294967297 /\
   process_info_write "4294967297" 10 module_init_state = (10, selected 1)) /\
  (decimal_text text_with_nul = None /\
   process_info_write text_with_nul 6 module_init_state = (6, selected 12)).
Proof. repeat split; vm_compute; reflexivity. Qed.

Lemma write_non_numeric_or_non_positive_witness :
  copy_from_user "" 0 = Some "" /\
  process_info_write "" 0 (selected 700) = (neg_errno EINVAL, selected 700) /\
  copy_from_user "-5" 2 = Some "-5" /\
  process_info_write "-5" 2 (selected 700) = (2, selected (-5)) /\
  read_text (cfg := x86_64) system (snd (process_info_write "-5" 2 (selected 700))) =
    "No valid PID provided" +:+ endl.
Proof.
  assert (He : copy_from_user "" 0 = Some "") by reflexivity.
  assert (Hm : copy_from_user "-5" 2 = Some "-5") by reflexivity.
  assert (H1 : (2 <= 31)%N) by discriminate.
  assert (H2 : decimal_text (c_string "-5") = Some (-5)) by reflexivity.
  assert (H3 : INT_MIN <= -5 <= 0) by (vm_compute; split; discriminate).
  split; [exact He | split; [| split; [exact Hm |]]].
  - exact (proj1 (proj2 (write_non_numeric_or_non_positive (H := x86_64) system
                           "" 0 (selected 700) "" He)) eq_refl).
  - exact (proj2 (proj2 (write_non_numeric_or_non_positive (H := x86_64) system
                           "-5" 2 (selected 700) "-5" Hm)) (-5) H1 H2 H3).
Defined.

(** C4 fails on the module: the payloads "0" and "-5" are accepted, and
    the selection changes from 700 to 0 and to -5. *)
Lemma write_non_numeric_or_non_positive_counterexample :
  process_info_write "0" 1 (selected 700) = (1, selected 0) /\
  process_info_write "-5" 2 (selected 700) = (2, selected (-5)).
Proof. split; vm_compute; reflexivity. Qed.

Lemma write_then_read_names_pid_witness :
  (3 <= 31)%N /\ copy_from_user "700" 3 = Some "700" /\
  decimal_text "700" = Some 700 /\ 0 < 700 <= INT_MAX /\
  exists st',
    process_info_write "700" 3 module_init_state = (Z.of_N 3, st') /\
    requested_pid st' = 700 /\
    names_pid (read_text (cfg := x86_64) system st') 700.
Proof.
  assert (H1 : (3 <= 31)%N) by discriminate.
  assert (H2 : copy_from_user "700" 3 = Some "700") by reflexivity.
  assert (H3 : decimal_text "700" = Some 700) by reflexivity.
  assert (H4 : 0 < 700 <= INT_MAX) by (vm_compute; split; [reflexivity | discriminate]).
  split; [exact H1 | split; [exact H2 | split; [exact H3 | split; [exact H4 |]]]].
  exact (write_then_read_names_pid (cfg := x86_64) system "700" 3 module_init_state "700" 700
           H1 H2 H3 H4).
Defined.

(** C7 fails on the module: "4294967297" is a positive decimal integer of
    ten bytes; the write succeeds, and the read that follows names PID 1.
    "9223372036854775808" is one of nineteen bytes, and the write fails. *)
Lemma write_then_read_names_pid_counterexample :
  (decimal_text "4294967297" = Some 4294967297 /\
   process_info_write "4294967297" 10 module_init_state = (10, selected 1) /\
   first_line (read_text (cfg := x86_64) system (selected 1)) = "PID: 1" /\
   ~ names_pid (read_text (cfg := x86_64) system (selected 1)) 4294967297) /\
  (decimal_text "9223372036854775808" = Some 9223372036854775808 /\
   process_info_write "9223372036854775808" 19 module_init_state =
   (neg_errno EINVAL, module_init_state)).
Proof.
  split; [split; [|split; [|split]] | split]; try (vm_compute; reflexivity).
  unfold names_pid. intros [H | H]; vm_compute in H; discriminate H.
Qed.

Lemma write_truncates_to_pid_t_witness :
  (10 <= 31)%N /\ copy_from_user "4294967297" 10 = Some "4294967297" /\
  decimal_text "4294967297" = Some 4294967297 /\
  LONG_MIN <= 4294967297 <= LONG_MAX /\ (4294967297 < INT_MIN \/ INT_MAX < 4294967297) /\
  process_info_write "4294967297" 10 module_init_state =
    (Z.of_N 10, {| requested_pid := to_int 4294967297 |}) /\
  to_int 4294967297 = 1.
Proof.
  assert (H1 : (10 <= 31)%N) by discriminate.
  assert (H2 : copy_from_user "4294967297" 10 = Some "4294967297") by reflexivity.
  assert (H3 : decimal_text "4294967297" = Some 4294967297) by reflexivity.
  assert (H4 : LONG_MIN <= 4294967297 <= LONG_MAX) by (vm_compute; split; discriminate).
  assert (H5 : 4294967297 < INT_MIN \/ INT_MAX < 4294967297) by (right; reflexivity).
  split; [exact H1 | split; [exact H2 | split; [exact H3 | split; [exact H4 | split; [exact H5 |]]]]].
  split; [|reflexivity].
  exact (proj1 (write_truncates_to_pid_t (cfg := x86_64) system "4294967297" 10
                  module_init_state "4294967297" 4294967297 H1 H2 H3 H4 H5)).
Defined.

(** C10 fails on the module: [padded_text] parses to 4294967297, yet its
    write fails, its 32 bytes being too many; and "4294967296" is stored as
    0, after which a read names no identifier at all. *)
Lemma write_truncates_to_pid_t_counterexample :
  (decimal_text padded_text = Some 4294967297 /\
   process_info_write padded_text 32 module_init_state =
   (neg_errno EINVAL, module_init_state)) /\
  (decimal_text "4294967296" = Some 4294967296 /\
   process_info_write "4294967296" 10 module_init_state = (10, selected 0) /\
   read_text (cfg := x86_64) system (selected 0) = "No valid PID provided" +:+ endl /\
   forall id, ~ names_pid (read_text (cfg := x86_64) system (selected 0)) id).
Proof.
  split; [split | split; [|split; [|split]]]; try (vm_compute; reflexivity).
  intros id Hnames.
  apply (read_names_only_selection (cfg := x86_64)) in Hnames as [Hpos _].
  simpl in Hpos. lia.
Qed.

End Scenarios.

(** * Beyond the interface: more properties of writes *)

Module WriteMore.
Import CInt CStr Decimal CStrFacts PrettyFacts KstrtoxFacts WriteFacts.

(** The status of a write, and on success the selection it makes, do not
    depend on the state the module was in. *)
Lemma write_forgets_state (buffer : string) (len : N) (st1 st2 : module_state) :
  fst (process_info_write buffer len st1) = fst (process_info_write buffer len st2) /\
  (0 <= fst (process_info_write buffer len st1) ->
   snd (process_info_write buffer len st1) = snd (process_info_write buffer len st2)).
Proof.
  pose proof (neg_errno_negative EINVAL). pose proof (neg_errno_negative EFAULT).
  unfold process_info_write.
  destruct (31 <? len)%N; [simpl; split; [reflexivity | lia]|].
  destruct (copy_from_user buffer len); [|simpl; split; [reflexivity | lia]].
  destruct (Kstrtox.kstrtol _ 10); simpl; split; trivial; lia.
Qed.

Lemma write_failure (buffer : string) (len : N) (st : module_state) :
  fst (process_info_write buffer len st) < 0 ->
  process_info_write buffer len st = (neg_errno EINVAL, st) \/
  process_info_write buffer len st = (neg_errno EFAULT, st).
Proof.
  unfold process_info_write.
  destruct (31 <? len)%N; [now left|].
  destruct (copy_from_user buffer len); [|now right].
  destruct (Kstrtox.kstrtol _ 10); [now left|]. simpl. lia.
Qed.

Lemma copy_whole (s : string) :
  copy_from_user s (N.of_nat (String.length s)) = Some s.
Proof.
  unfold copy_from_user. rewrite N.leb_refl, Nat2N.id, take_all; trivial.
Qed.

Lemma write_seq_app (ws1 ws2 : list (string * N)) (st : module_state) :
  write_seq (ws1 ++ ws2) st = write_seq ws2 (write_seq ws1 st).
Proof. apply fold_left_app. Qed.

Lemma write_keeps_pid_range (buffer : string) (len : N) (st : module_state) :
  INT_MIN <= requested_pid st <= INT_MAX ->
  INT_MIN <= requested_pid (snd (process_info_write buffer len st)) <= INT_MAX.
Proof.
  intros Hst. unfold process_info_write.
  destruct (31 <? len)%N; [exact Hst|].
  destruct (copy_from_user buffer len); [|exact Hst].
  destruct (Kstrtox.kstrtol _ 10) as [e | v]; [exact Hst|].
  simpl. pose proof (to_int_range v). unfold INT_MIN, INT_MAX. lia.
Qed.

Lemma failed_writes_keep_state (ws : list (string * N)) : forall st : module_state,
  Forall (fun w => fst (process_info_write (fst w) (snd w) module_init_state) < 0) ws ->
  write_seq ws st = st.
Proof.
  induction ws as [|w ws IH]; intros st Hws; [reflexivity|].
  inversion Hws as [|? ? Hw Hrest]; subst.
  unfold write_seq. simpl. fold (write_seq ws).
  rewrite (proj1 (write_forgets_state (fst w) (snd w) module_init_state st)) in Hw.
  destruct (write_failure _ _ _ Hw) as [E | E]; rewrite E; simpl; auto.
Qed.

(** X1: a write that fails, for whatever reason, reports an invalid
    argument or an access fault and leaves the selection as it was, so the
    read that follows gives the text and makes the kernel calls it would
    have given and made before. *)
Theorem failed_write_changes_nothing `{KernelConfig} (k : kernel) (buffer : string)
    (len : N) (st : module_state) :
  fst (process_info_write buffer len st) < 0 ->
  (fst (process_info_write buffer len st) = neg_errno EINVAL \/
   fst (process_info_write buffer len st) = neg_errno EFAULT) /\
  snd (process_info_write buffer len st) = st /\
  read_text k (snd (process_info_write buffer len st)) = read_text k st /\
  read_trace k (snd (process_info_write buffer len st)) = read_trace k st.
Proof.
  intros Hneg. destruct (write_failure _ _ _ Hneg) as [E | E]; rewrite E; simpl; auto.
Qed.

(** X2: whatever is written, in whatever order, the selection stays within
    the range of a [pid_t]: starting from the initial -1, every run of
    writes leaves a selection between [INT_MIN] and [INT_MAX]. *)
Theorem selection_stays_in_pid_range (ws : list (string * N)) :
  INT_MIN <= requested_pid (write_seq ws module_init_state) <= INT_MAX.
Proof.
  assert (Hgen : forall st, INT_MIN <= requested_pid st <= INT_MAX ->
                 INT_MIN <= requested_pid (write_seq ws st) <= INT_MAX).
  { induction ws as [|w ws IH]; intros st Hst; [exact Hst|].
    unfold write_seq. simpl. fold (write_seq ws).
    apply IH. now apply write_keeps_pid_range. }
  apply Hgen. unfold INT_MIN, INT_MAX. simpl. lia.
Qed.

(** X3: the last successful write wins.  After any run of writes, a write
    that succeeds, and any number of writes that fail after it, the
    selection is the one this write makes on its own, whatever was selected
    before. *)
Theorem last_successful_write_wins (before after : list (string * N))
    (buffer : string) (len : N) (st st0 : module_state) :
  0 <= fst (process_info_write buffer len st0) ->
  Forall (fun w => fst (process_info_write (fst w) (snd w) module_init_state) < 0) after ->
  write_seq (before ++ (buffer, len) :: after) st =
  snd (process_info_write buffer len st0).
Proof.
  intros Hok Hafter.
  rewrite write_seq_app. unfold write_seq at 1. simpl. fold (write_seq after).
  rewrite (failed_writes_keep_state after) by exact Hafter.
  symmetry. now apply write_forgets_state.
Qed.

(** X4: until a write succeeds, nothing is selected: after any run of
    writes that all fail, starting from the state the module is loaded in,
    a read reports that no valid PID was provided and makes no kernel
    call. *)
Theorem nothing_selected_before_a_write_succeeds `{KernelConfig} (k : kernel)
    (ws : list (string * N)) :
  Forall (fun w => fst (process_info_write (fst w) (snd w) module_init_state) < 0) ws ->
  read_text k (write_seq ws module_init_state) = "No valid PID provided" +:+ endl /\
  read_trace k (write_seq ws module_init_state) = [].
Proof.
  intros Hws. rewrite (failed_writes_keep_state ws) by exact Hws.
  split; reflexivity.
Qed.

(** X5: a decimal text whose value does not fit a [long] is rejected like a
    malformed one: the write fails with an invalid-argument error, not a
    range error, and the selection is unchanged. *)
Theorem write_rejects_values_beyond_long (buffer : string) (len : N) (st : module_state)
    (payload : string) (v : Z) :
  copy_from_user buffer len = Some payload ->
  decimal_text (c_string payload) = Some v ->
  v < LONG_MIN \/ LONG_MAX < v ->
  process_info_write buffer len st = (neg_errno EINVAL, st).
Proof.
  intros Hcopy Hv Hout.
  destruct (N.ltb_spec 31 len) as [Hlong | Hshort]; [now apply write_too_long|].
  rewrite (write_parsed buffer len st payload) by trivial.
  destruct (Kstrtox.kstrtol (c_string payload) 10) as [e | u] eqn:E; [reflexivity|].
  apply kstrtol_decimal_text in E as [E Hu]. rewrite Hv in E. injection E as <-. lia.
Qed.

Lemma unsigned_text_plus (ds : string) (v : Z) :
  unsigned_text ds = Some v ->
  decimal_text ds = Some v /\ decimal_text (ds +:+ endl) = Some v /\
  decimal_text ("+" +:+ ds) = Some v /\ decimal_text (("+" +:+ ds) +:+ endl) = Some v.
Proof.
  intros Hu. pose proof Hu as Hd. apply unsigned_text_digits in Hd as (Hne & Hds & _).
  assert (Hs : signed_text ds = Some v).
  { destruct ds as [|c r]; [contradiction|]. unfold signed_text.
    simpl in Hds. apply andb_true_iff in Hds as [Hc _].
    destruct (Ascii.eqb_spec c "-") as [-> |]; [discriminate|].
    destruct (Ascii.eqb_spec c "+") as [-> |]; [discriminate|]. exact Hu. }
  assert (Hp : signed_text ("+" +:+ ds) = Some v) by exact Hu.
  assert (Hcp : chomp ("+" +:+ ds) = "+" +:+ ds).
  { change ("+" +:+ ds) with (String "+" ds).
    rewrite chomp_cons by discriminate. now rewrite chomp_digits. }
  unfold decimal_text, endl.
  rewrite !chomp_app_LF, chomp_digits, Hcp by trivial. auto.
Qed.

(** X6: a trailing line feed and a leading plus sign do not change what a
    write selects.  For a run of digits whose value fits a [long], writing
    the digits alone, with a line feed after them (as [echo] does), with a
    plus sign before them, or with both, succeeds, returns the number of
    bytes written and makes the same selection. *)
Theorem write_ignores_plus_and_newline (ds : string) (v : Z) (st : module_state) :
  unsigned_text ds = Some v -> v <= LONG_MAX -> (String.length ds <= 29)%nat ->
  let n := N.of_nat (String.length ds) in
  let sel := {| requested_pid := to_int v |} in
  process_info_write ds n st = (Z.of_N n, sel) /\
  process_info_write (ds +:+ endl) (n + 1) st = (Z.of_N (n + 1), sel) /\
  process_info_write ("+" +:+ ds) (n + 1) st = (Z.of_N (n + 1), sel) /\
  process_info_write (("+" +:+ ds) +:+ endl) (n + 2) st = (Z.of_N (n + 2), sel).
Proof.
  intros Hu Hmax Hlen n sel.
  pose proof (unsigned_text_nonneg _ _ Hu) as Hpos.
  destruct (unsigned_text_plus ds v Hu) as (H1 & H2 & H3 & H4).
  assert (Hw : forall text m, decimal_text text = Some v ->
               m = N.of_nat (String.length text) -> (m <= 31)%N ->
               process_info_write text m st = (Z.of_N m, sel)).
  { intros text m Ht -> Hm.
    rewrite (write_parsed text _ st text) by (trivial; apply copy_whole).
    rewrite (decimal_text_c_string text v) by trivial.
    assert (E : Kstrtox.kstrtol text 10 = inr v).
    { apply kstrtol_decimal_text. unfold LONG_MIN, LONG_MAX in *. split; [trivial | lia]. }
    now rewrite E. }
  unfold endl in *. subst n.
  repeat split; apply Hw; trivial;
    rewrite ?length_app; change (String.length "+") with 1%nat;
    change (String.length (String LF "")) with 1%nat; lia.
Qed.

Lemma digit_decimal_char (c : ascii) : is_digit c = true -> decimal_char c = true.
Proof. unfold decimal_char. now intros ->. Qed.

Lemma unsigned_text_chars (s : string) (v : Z) :
  unsigned_text s = Some v -> forallb decimal_char s = true.
Proof.
  rewrite unsigned_text_digits. intros (_ & Hds & _).
  apply (forallb_impl is_digit); [apply digit_decimal_char | trivial].
Qed.

Lemma decimal_text_chars (s : string) (v : Z) :
  decimal_text s = Some v -> forallb decimal_char s = true.
Proof.
  unfold decimal_text. intros H.
  assert (Hc : forallb decimal_char (chomp s) = true).
  { unfold signed_text in H. destruct (chomp s) as [|c r]; [discriminate|].
    destruct (Ascii.eqb_spec c "-") as [-> | _].
    - destruct (unsigned_text r) as [u|] eqn:E; [|discriminate].
      simpl. eapply unsigned_text_chars; eauto.
    - destruct (Ascii.eqb_spec c "+") as [-> | _].
      + simpl. eapply unsigned_text_chars; eauto.
      + eapply unsigned_text_chars; eauto. }
  destruct (chomp_cases s) as [E | E]; rewrite E; [trivial|].
  rewrite forallb_app, Hc. reflexivity.
Qed.

(** X7: the parser skips nothing.  A payload that holds, before its first
    NUL, any character other than a digit, a sign or a line feed (a space,
    a letter, a hexadecimal prefix) is rejected with an invalid-argument
    error and the selection is unchanged. *)
Theorem write_rejects_foreign_characters (buffer : string) (len : N)
    (st : module_state) (payload : string) :
  copy_from_user buffer len = Some payload ->
  forallb decimal_char (c_string payload) = false ->
  process_info_write buffer len st = (neg_errno EINVAL, st).
Proof.
  intros Hcopy Hchars.
  destruct (N.ltb_spec 31 len) as [Hlong | Hshort]; [now apply write_too_long|].
  rewrite (write_parsed buffer len st payload) by trivial.
  destruct (decimal_text (c_string payload)) as [v|] eqn:E.
  - apply decimal_text_chars in E. congruence.
  - destruct (kstrtol_rejects _ E) as [e ->]. reflexivity.
Qed.

(** X8: writing a value that is not positive deselects.  After a write of
    a decimal integer between [INT_MIN] and 0 the read that follows reports
    that no valid PID was provided, and makes no kernel call: it takes no
    lock and looks no process up. *)
Theorem write_non_positive_deselects `{KernelConfig} (k : kernel) (buffer : string)
    (len : N) (st : module_state) (payload : string) (v : Z) :
  (len <= 31)%N -> copy_from_user buffer len = Some payload ->
  decimal_text (c_string payload) = Some v -> INT_MIN <= v <= 0 ->
  fst (process_info_write buffer len st) = Z.of_N len /\
  read_text k (snd (process_info_write buffer len st)) = "No valid PID provided" +:+ endl /\
  read_trace k (snd (process_info_write buffer len st)) = [].
Proof.
  intros Hshort Hcopy Hv Hrange. unfold INT_MIN in Hrange.
  rewrite (write_parsed buffer len st payload) by trivial.
  assert (E : Kstrtox.kstrtol (c_string payload) 10 = inr v).
  { apply kstrtol_decimal_text. unfold LONG_MIN, LONG_MAX. split; [trivial | lia]. }
  rewrite E, to_int_small by lia. simpl.
  split; [reflexivity|].
  unfold read_text, read_trace, process_info_show. simpl.
  destruct (Z.leb_spec v 0); [split; reflexivity | lia].
Qed.

Lemma c_string_app_NUL (p junk : string) :
  forallb (not_char NUL) p = true -> c_string (p +:+ String NUL junk) = p.
Proof.
  induction p as [|c p IH]; [reflexivity|].
  rewrite app_cons. simpl. unfold not_char at 1.
  rewrite andb_true_iff, negb_true_iff. intros [Hc Hp]. now rewrite Hc, IH.
Qed.

(** X17: the bytes after the first NUL of a payload are ignored.  For a
    payload without NUL followed by a NUL and by any bytes at all, 31 bytes
    at most in total, the write fails when the write of the payload alone
    fails, and otherwise selects what that write selects and returns the
    total number of bytes. *)
Theorem write_ignores_bytes_after_NUL (p junk : string) (st : module_state) :
  forallb (not_char NUL) p = true ->
  (String.length (p +:+ String NUL junk) <= 31)%nat ->
  let alone := process_info_write p (N.of_nat (String.length p)) st in
  let padded :=
    process_info_write (p +:+ String NUL junk)
      (N.of_nat (String.length (p +:+ String NUL junk))) st in
  snd padded = snd alone /\
  (fst alone < 0 -> fst padded = fst alone) /\
  (0 <= fst alone ->
   fst padded = Z.of_nat (String.length (p +:+ String NUL junk))).
Proof.
  intros Hp Hlen alone padded. subst alone padded.
  pose proof (neg_errno_negative EINVAL) as Hneg.
  assert (Hshort : (String.length p <= 31)%nat).
  { rewrite length_app in Hlen. lia. }
  rewrite (write_parsed p _ st p) by (try apply copy_whole; lia).
  rewrite (write_parsed (p +:+ String NUL junk) _ st (p +:+ String NUL junk))
    by (try apply copy_whole; lia).
  rewrite c_string_app_NUL, c_string_id by trivial.
  destruct (Kstrtox.kstrtol p 10) as [e | v]; simpl.
  - split; [reflexivity|]. split; [reflexivity|]. lia.
  - split; [reflexivity|]. split; [lia|]. intros _. apply nat_N_Z.
Qed.

End WriteMore.

(** * Beyond the interface: more properties of reads *)

Section ReadMore.
Context {cfg : KernelConfig}.
Variable k : kernel.
Import CInt CStr CStrFacts PrettyFacts.

(** X9: the first line of a report names an identifier exactly when the
    selection is positive, and the identifier it names is the selection:
    no read names a process other than the selected one, whether or not
    that process exists. *)
Theorem read_names_exactly_the_selection (st : module_state) (id : Z) :
  names_pid (read_text k st) id <-> 0 < requested_pid st /\ id = requested_pid st.
Proof.
  split.
  - apply read_names_only_selection.
  - intros [Hpos ->]. now apply read_names_selection.
Qed.

(** X10: a read leaks no memory.  On every path, whatever allocations
    succeed or fail, each pointer that [kmalloc] returned is passed to
    [kfree] exactly once before [process_info_show] returns: the trace
    frees only pointers that are live, so none twice and none that was not
    allocated, and leaves none live at its end. *)
Theorem read_frees_every_buffer (st : module_state) :
  Heap.live_buffers [] (read_trace k st) = Some [].
Proof. show_branches k st; reflexivity. Qed.

Lemma read_trace_no_selection (st : module_state) :
  requested_pid st <= 0 -> read_trace k st = [].
Proof. show_branches k st; try lia; reflexivity. Qed.

Lemma read_trace_not_found (st : module_state) :
  0 < requested_pid st -> pid_task k (requested_pid st) = None ->
  read_trace k st = [EvRcuReadLock; EvRcuReadUnlock].
Proof.
  intros Hpos Hnone. show_branches k st; try lia; try discriminate; reflexivity.
Qed.

Lemma read_trace_no_mm (st : module_state) (task : task_struct) :
  0 < requested_pid st -> pid_task k (requested_pid st) = Some task ->
  task_mm task = None ->
  read_trace k st = [EvRcuReadLock; EvRcuReadUnlock].
Proof.
  intros Hpos Hsome Hnone. show_branches k st; try lia; try discriminate;
    injection Hsome as ->; try congruence; reflexivity.
Qed.

Lemma read_trace_mm_allocates (st : module_state) (task : task_struct) (mm : mm_struct) :
  0 < requested_pid st -> pid_task k (requested_pid st) = Some task ->
  task_mm task = Some mm ->
  existsb Heap.is_kmalloc (read_trace k st) = true.
Proof.
  intros Hpos Hsome Hmm. show_branches k st; try lia; try discriminate;
    injection Hsome as ->; try congruence; reflexivity.
Qed.

(** X11: a read asks for memory exactly when the selected process exists
    and has an address space: with no selection, no such process, or a
    process without address space (a kernel thread), it never calls
    [kmalloc]. *)
Theorem read_allocates_only_for_an_address_space (st : module_state) :
  existsb Heap.is_kmalloc (read_trace k st) = true <->
  0 < requested_pid st /\
  exists task mm, pid_task k (requested_pid st) = Some task /\ task_mm task = Some mm.
Proof.
  destruct (Z.le_gt_cases (requested_pid st) 0) as [Hsel | Hsel].
  { rewrite read_trace_no_selection by trivial.
    split; [discriminate | intros [? _]; lia]. }
  destruct (pid_task k (requested_pid st)) as [task|] eqn:Hfind.
  2:{ rewrite read_trace_not_found by (trivial; lia).
      split; [discriminate | intros (_ & t & m & [=] & _)]. }
  destruct (task_mm task) as [mm|] eqn:Hmm.
  - rewrite (read_trace_mm_allocates st task mm) by (trivial; lia).
    split; [|reflexivity].
    intros _. split; [lia | eauto].
  - rewrite (read_trace_no_mm st task) by (trivial; lia).
    split; [discriminate|]. intros (_ & t & m & [= <-] & Hm). congruence.
Qed.

(** X12: the Executable line.  For a process with an address space the
    line shows the path of the executable when the path buffer was
    allocated, the process has an executable file and its path fits
    [PATH_MAX] with its terminator; in every other case (allocation
    failure, no executable file, path too long) it shows "Unknown".  The
    outcome does not depend on the command-line buffers. *)
Theorem executable_line (st : module_state) (task : task_struct) (mm : mm_struct) :
  0 < requested_pid st -> pid_task k (requested_pid st) = Some task ->
  task_mm task = Some mm ->
  exists cmdline : option string,
    read_text k st =
    render (requested_pid st)
      {| ownerId := to_int (from_kuid_munged k (task_uid task));
         executablePath :=
           match kmalloc_oracle k 0, exe_file mm with
           | Some _, Some f =>
               if strlen (f_path f) + 1 <=? PATH_MAX then Some (f_path f) else Some "Unknown"
           | Some _, None => Some "Unknown"
           | None, _ => None
           end;
         commandLineSummary := cmdline |}.
Proof.
  intros Hpos Hsome Hmm. show_branches k st; try lia; try discriminate;
    injection Hsome as ->; try congruence;
    rewrite Hmm in Hmm0; injection Hmm0 as <-;
    rewrite four_lines; unfold render, d_path;
    cbn [ownerId executablePath commandLineSummary];
    destruct (exe_file mm) as [f|];
    try destruct (strlen (f_path f) + 1 <=? PATH_MAX);
    eexists; reflexivity.
Qed.

(** X13: the UID line prints the owner as a signed [int].  An owner id
    below 2^31 is printed as it is; a larger one, which a [uid_t] can be,
    is printed as the negative number 2^32 below it. *)
Theorem owner_line_is_signed (st : module_state) (task : task_struct) :
  0 < requested_pid st -> pid_task k (requested_pid st) = Some task ->
  0 <= from_kuid_munged k (task_uid task) < 2 ^ 32 ->
  exists exec_path cmdline : option string,
    read_text k st =
    render (requested_pid st)
      {| ownerId := if from_kuid_munged k (task_uid task) <? 2 ^ 31
                    then from_kuid_munged k (task_uid task)
                    else from_kuid_munged k (task_uid task) - 2 ^ 32;
         executablePath := exec_path;
         commandLineSummary := cmdline |}.
Proof.
  intros Hpos Hsome Hu.
  destruct (read_text_live k st task Hpos Hsome) as (e & c & ->).
  exists e, c. do 2 f_equal.
  destruct (Z.ltb_spec (from_kuid_munged k (task_uid task)) (2 ^ 31)).
  - apply to_int_small. lia.
  - unfold to_int.
    replace (from_kuid_munged k (task_uid task) + 2 ^ 31)
      with ((from_kuid_munged k (task_uid task) - 2 ^ 31) + 1 * 2 ^ 32) by lia.
    rewrite Z.mod_add, Z.mod_small; lia.
Qed.

End ReadMore.

(** X14: the contract of [read_cmdline], for any buffer size an [int] can
    hold.  It returns a negative value exactly when a pointer is null, and
    then the value is [-EINVAL], or the task has no address space, and then
    it is [-ENOENT]; in both cases it has touched neither the buffer nor
    the kernel.  Otherwise it returns the length of the string it left in
    the buffer, at most [buf_size - 1], having taken and dropped one
    reference on the address space.  It never prints and never
    allocates. *)
Theorem read_cmdline_contract (task : option task_struct) (buffer : option string)
    (buf_size : Z) (s : call_state) :
  1 <= buf_size <= CInt.INT_MAX ->
  let r := fst (fst (read_cmdline task buffer buf_size s)) in
  let buffer' := snd (fst (read_cmdline task buffer buf_size s)) in
  let s' := snd (read_cmdline task buffer buf_size s) in
  cs_out s' = cs_out s /\ cs_allocs s' = cs_allocs s /\
  (r < 0 <-> task = None \/ buffer = None \/ exists t, task = Some t /\ task_mm t = None) /\
  (task = None \/ buffer = None -> r = neg_errno EINVAL) /\
  (forall t b, task = Some t -> buffer = Some b -> task_mm t = None ->
     r = neg_errno ENOENT) /\
  (r < 0 -> buffer' = buffer /\ s' = s) /\
  (0 <= r ->
     exists text, buffer' = Some text /\ r = CStr.strlen text /\ r <= buf_size - 1 /\
       cs_trace s' = (cs_trace s ++ [EvMmGet; EvMmPut])%list).
Proof.
  intros Hsize. unfold CInt.INT_MAX in Hsize.
  pose proof (WriteFacts.neg_errno_negative EINVAL) as Hinval.
  pose proof (WriteFacts.neg_errno_negative ENOENT) as Hnoent.
  unfold read_cmdline, get_task_mm.
  destruct buffer as [buf|]; [destruct task as [t|]; [destruct (task_mm t) as [mm|] eqn:Hmm|]|].
  - unfold bind, ret, mmput, emit. cbn [fst snd cs_trace cs_allocs cs_out].
    set (text := if arg_start mm <? arg_end mm then _ else _).
    assert (Hlen : CStr.strlen text <= buf_size - 1).
    { unfold CStr.strlen. subst text. unfold CStr.snprintf, CStr.strscpy.
      destruct (arg_start mm <? arg_end mm); rewrite CStrFacts.length_take; lia. }
    assert (Hpos : 0 <= CStr.strlen text) by (unfold CStr.strlen; lia).
    rewrite to_int_small by lia.
    split; [reflexivity|]. split; [reflexivity|]. split; [|split; [|split; [|split]]].
    + split; [lia|]. intros [[=] | [[=] | (t' & [= <-] & Hnone)]]. congruence.
    + intros [[=] | [=]].
    + intros t' b [= <-] _ Hnone. congruence.
    + lia.
    + intros _. exists text. repeat split; trivial. now rewrite <- app_assoc.
  - cbn. split; [reflexivity|]. split; [reflexivity|]. split; [|split; [|split; [|split]]].
    + split; [eauto | lia].
    + intros [[=] | [=]].
    + reflexivity.
    + auto.
    + lia.
  - cbn. split; [reflexivity|]. split; [reflexivity|]. split; [|split; [|split; [|split]]].
    + split; [auto | lia].
    + reflexivity.
    + intros t b [=].
    + auto.
    + lia.
  - destruct task; cbn; (split; [reflexivity|]); (split; [reflexivity|]);
      (split; [|split; [|split; [|split]]]);
      try (split; [auto | lia]); try reflexivity; try (intros t' b ? [=]);
      try (intros t' b [=]); auto; lia.
Qed.

(** * Loading and unloading the module *)

Module LifecycleFacts.
Import Lifecycle.

(** X15: what loading does to /proc.  [process_info_init] returns 0 or
    [-ENOMEM]; it returns 0 exactly when the name "process_info" was free
    and the entry could be allocated.  On success /proc holds the entry
    under that name, readable and writable by everyone (mode 0666), with
    the module's handlers; on failure the module holds no entry.  In both
    cases every other entry of /proc is as it was. *)
Theorem load_registers_one_entry (can_allocate : bool) (s : loader) :
  let r := fst (process_info_init can_allocate s) in
  let s' := snd (process_info_init can_allocate s) in
  (r = 0 \/ r = - ENOMEM) /\
  (r = 0 <-> proc_root s !! PROCFS_NAME = None /\ can_allocate = true) /\
  (r = 0 ->
     proc_root s' !! PROCFS_NAME = Some {| pde_mode := 6 * 64 + 6 * 8 + 6; pde_ops := proc_file_ops |} /\
     proc_file s' = Some PROCFS_NAME) /\
  (r <> 0 -> proc_root s' = proc_root s /\ proc_file s' = None) /\
  (forall name, name <> PROCFS_NAME -> proc_root s' !! name = proc_root s !! name).
Proof.
  unfold process_info_init, proc_create.
  destruct (proc_root s !! PROCFS_NAME) as [e|] eqn:E; [|destruct can_allocate]; cbn;
    unfold ENOMEM; repeat split; auto; try discriminate; try lia;
    try (intros [? ?]; discriminate);
    try (intros; exfalso; lia).
  - apply lookup_insert_eq.
  - intros name Hname. now apply lookup_insert_ne.
Qed.

(** X16: loading and then unloading leaves /proc as it was: after a
    successful [process_info_init], [process_info_exit] removes the entry
    of the module and nothing else. *)
Theorem load_then_unload_restores_proc (can_allocate : bool) (s : loader) :
  fst (process_info_init can_allocate s) = 0 ->
  proc_root (process_info_exit (snd (process_info_init can_allocate s))) = proc_root s.
Proof.
  unfold process_info_init, proc_create, process_info_exit.
  destruct (proc_root s !! PROCFS_NAME) as [e|] eqn:E; [|destruct can_allocate]; cbn;
    unfold ENOMEM; try (intros; exfalso; lia).
  intros _. rewrite delete_insert_eq. now apply delete_id.
Qed.

End LifecycleFacts.

(** * The further properties at work *)

Module MoreScenarios.
Import CInt CStr Decimal Demo WriteMore LifecycleFacts.

Lemma failed_write_changes_nothing_witness :
  fst (process_info_write "12a" 3 (selected 700)) < 0 /\
  snd (process_info_write "12a" 3 (selected 700)) = selected 700 /\
  read_text (cfg := x86_64) system (snd (process_info_write "12a" 3 (selected 700))) =
  read_text (cfg := x86_64) system (selected 700).
Proof.
  assert (H : fst (process_info_write "12a" 3 (selected 700)) < 0) by reflexivity.
  destruct (failed_write_changes_nothing (H := x86_64) system "12a" 3 (selected 700) H)
    as (_ & Hst & Htext & _).
  split; [exact H | split; [exact Hst | exact Htext]].
Defined.

Lemma last_successful_write_wins_witness :
  0 <= fst (process_info_write "700" 3 module_init_state) /\
  Forall (fun w => fst (process_info_write (fst w) (snd w) module_init_state) < 0)
    [("pid", 3%N); ("", 0%N)] /\
  write_seq ([("1", 1%N)] ++ ("700", 3%N) :: [("pid", 3%N); ("", 0%N)]) (selected 2) =
  selected 700.
Proof.
  assert (H1 : 0 <= fst (process_info_write "700" 3 module_init_state)) by discriminate.
  assert (H2 : Forall (fun w => fst (process_info_write (fst w) (snd w) module_init_state) < 0)
                 [("pid", 3%N); ("", 0%N)]) by (repeat constructor).
  split; [exact H1 | split; [exact H2 |]].
  exact (last_successful_write_wins [("1", 1%N)] [("pid", 3%N); ("", 0%N)] "700" 3
           (selected 2) module_init_state H1 H2).
Defined.

Lemma nothing_selected_before_a_write_succeeds_witness :
  Forall (fun w => fst (process_info_write (fst w) (snd w) module_init_state) < 0)
    [("pid", 3%N); (padded_text, 32%N)] /\
  read_text (cfg := x86_64) system (write_seq [("pid", 3%N); (padded_text, 32%N)] module_init_state) =
  "No valid PID provided" +:+ endl.
Proof.
  assert (H : Forall (fun w => fst (process_info_write (fst w) (snd w) module_init_state) < 0)
                [("pid", 3%N); (padded_text, 32%N)]) by (repeat constructor).
  split; [exact H |].
  exact (proj1 (nothing_selected_before_a_write_succeeds (H := x86_64) system _ H)).
Defined.

Lemma write_rejects_values_beyond_long_witness :
  copy_from_user "9223372036854775808" 19 = Some "9223372036854775808" /\
  decimal_text (c_string "9223372036854775808") = Some 9223372036854775808 /\
  (9223372036854775808 < LONG_MIN \/ LONG_MAX < 9223372036854775808) /\
  process_info_write "9223372036854775808" 19 (selected 700) = (neg_errno EINVAL, selected 700).
Proof.
  assert (H1 : copy_from_user "9223372036854775808" 19 = Some "9223372036854775808") by reflexivity.
  assert (H2 : decimal_text (c_string "9223372036854775808") = Some 9223372036854775808)
    by reflexivity.
  assert (H3 : 9223372036854775808 < LONG_MIN \/ LONG_MAX < 9223372036854775808)
    by (right; reflexivity).
  split; [exact H1 | split; [exact H2 | split; [exact H3 |]]].
  exact (write_rejects_values_beyond_long _ _ (selected 700) _ _ H1 H2 H3).
Defined.

Lemma write_ignores_plus_and_newline_witness :
  unsigned_text "700" = Some 700 /\ 700 <= LONG_MAX /\ (String.length "700" <= 29)%nat /\
  process_info_write ("700" +:+ endl) 4 module_init_state = (4, selected 700) /\
  process_info_write (("+" +:+ "700") +:+ endl) 5 module_init_state = (5, selected 700).
Proof.
  assert (H1 : unsigned_text "700" = Some 700) by reflexivity.
  assert (H2 : 700 <= LONG_MAX) by discriminate.
  assert (H3 : (String.length "700" <= 29)%nat) by (simpl; lia).
  destruct (write_ignores_plus_and_newline "700" 700 module_init_state H1 H2 H3)
    as (_ & Hnl & _ & Hboth).
  split; [exact H1 | split; [exact H2 | split; [exact H3 | split; [exact Hnl | exact Hboth]]]].
Defined.

Lemma write_rejects_foreign_characters_witness :
  copy_from_user " 700" 4 = Some " 700" /\
  CStr.forallb decimal_char (c_string " 700") = false /\
  process_info_write " 700" 4 (selected 1) = (neg_errno EINVAL, selected 1) /\
  copy_from_user "0x2bc" 5 = Some "0x2bc" /\
  CStr.forallb decimal_char (c_string "0x2bc") = false /\
  process_info_write "0x2bc" 5 (selected 1) = (neg_errno EINVAL, selected 1).
Proof.
  assert (H1 : copy_from_user " 700" 4 = Some " 700") by reflexivity.
  assert (H2 : CStr.forallb decimal_char (c_string " 700") = false) by reflexivity.
  assert (H3 : copy_from_user "0x2bc" 5 = Some "0x2bc") by reflexivity.
  assert (H4 : CStr.forallb decimal_char (c_string "0x2bc") = false) by reflexivity.
  split; [exact H1 | split; [exact H2 | split; [| split; [exact H3 | split; [exact H4 |]]]]].
  - exact (write_rejects_foreign_characters _ _ (selected 1) _ H1 H2).
  - exact (write_rejects_foreign_characters _ _ (selected 1) _ H3 H4).
Defined.

Lemma write_ignores_bytes_after_NUL_witness :
  CStr.forallb (not_char NUL) "700" = true /\
  (String.length ("700" +:+ String NUL "1") <= 31)%nat /\
  process_info_write ("700" +:+ String NUL "1") 5 module_init_state = (5, selected 700).
Proof.
  assert (H1 : CStr.forallb (not_char NUL) "700" = true) by reflexivity.
  assert (H2 : (String.length ("700" +:+ String NUL "1") <= 31)%nat) by (vm_compute; lia).
  split; [exact H1 | split; [exact H2 |]].
  destruct (write_ignores_bytes_after_NUL "700" "1" module_init_state H1 H2) as (Hs & _ & Hr).
  apply injective_projections; [apply Hr; discriminate | exact Hs].
Defined.

Lemma write_non_positive_deselects_witness :
  (2 <= 31)%N /\ copy_from_user "-5" 2 = Some "-5" /\
  decimal_text (c_string "-5") = Some (-5) /\ INT_MIN <= -5 <= 0 /\
  read_text (cfg := x86_64) system (snd (process_info_write "-5" 2 (selected 700))) =
  "No valid PID provided" +:+ endl.
Proof.
  assert (H1 : (2 <= 31)%N) by discriminate.
  assert (H2 : copy_from_user "-5" 2 = Some "-5") by reflexivity.
  assert (H3 : decimal_text (c_string "-5") = Some (-5)) by reflexivity.
  assert (H4 : INT_MIN <= -5 <= 0) by (split; discriminate).
  split; [exact H1 | split; [exact H2 | split; [exact H3 | split; [exact H4 |]]]].
  exact (proj1 (proj2 (write_non_positive_deselects (H := x86_64) system "-5" 2
                         (selected 700) "-5" (-5) H1 H2 H3 H4))).
Defined.

Lemma read_names_exactly_the_selection_witness :
  0 < requested_pid (selected 700) /\
  names_pid (read_text (cfg := x86_64) system (selected 700)) 700 /\
  ~ names_pid (read_text (cfg := x86_64) system (selected 700)) 1.
Proof.
  assert (H : 0 < requested_pid (selected 700)) by reflexivity.
  split; [exact H | split].
  - exact (proj2 (read_names_exactly_the_selection (cfg := x86_64) system (selected 700) 700)
             (conj H eq_refl)).
  - intros Hn.
    apply (read_names_exactly_the_selection (cfg := x86_64) system (selected 700) 1) in Hn
      as [_ Hn].
    discriminate Hn.
Defined.

Lemma read_allocates_only_for_an_address_space_witness :
  pid_task system 1 = Some init_task /\
  existsb Heap.is_kmalloc (read_trace (cfg := x86_64) system (selected 1)) = true /\
  pid_task system 2 = Some kthreadd /\ task_mm kthreadd = None /\
  existsb Heap.is_kmalloc (read_trace (cfg := x86_64) system (selected 2)) <> true.
Proof.
  assert (H1 : pid_task system 1 = Some init_task) by reflexivity.
  assert (H2 : pid_task system 2 = Some kthreadd) by reflexivity.
  split; [exact H1 | split; [| split; [exact H2 | split; [reflexivity |]]]].
  - apply (proj2 (read_allocates_only_for_an_address_space (cfg := x86_64) system (selected 1))).
    split; [reflexivity|]. eexists _, _. split; [exact H1 | reflexivity].
  - intros Hq.
    apply (proj1 (read_allocates_only_for_an_address_space (cfg := x86_64) system (selected 2)))
      in Hq as (_ & t & m & Ht & Hm).
    pose proof (eq_trans (eq_sym H2) Ht) as E. injection E as <-. discriminate Hm.
Defined.

Lemma executable_line_witness :
  0 < requested_pid (selected 900) /\
  pid_task MoreDemo.system 900 = Some MoreDemo.far_task /\
  is_Some (task_mm MoreDemo.far_task) /\
  exists cmdline : option string,
    read_text (cfg := x86_64) MoreDemo.system (selected 900) =
    render 900 {| ownerId := -2; executablePath := Some "Unknown";
                  commandLineSummary := cmdline |}.
Proof.
  assert (H1 : 0 < requested_pid (selected 900)) by reflexivity.
  assert (H2 : pid_task MoreDemo.system (requested_pid (selected 900)) = Some MoreDemo.far_task)
    by reflexivity.
  split; [exact H1 | split; [exact H2 | split; [eexists; reflexivity |]]].
  destruct (executable_line (cfg := x86_64) MoreDemo.system (selected 900) MoreDemo.far_task _
              H1 H2 eq_refl) as [c Hc].
  exists c. rewrite Hc. vm_compute. reflexivity.
Defined.

Lemma owner_line_is_signed_witness :
  0 < requested_pid (selected 900) /\
  pid_task MoreDemo.system 900 = Some MoreDemo.far_task /\
  0 <= from_kuid_munged MoreDemo.system (task_uid MoreDemo.far_task) < 2 ^ 32 /\
  exists exec_path cmdline : option string,
    read_text (cfg := x86_64) MoreDemo.system (selected 900) =
    render 900 {| ownerId := 4294967294 - 2 ^ 32; executablePath := exec_path;
                  commandLineSummary := cmdline |}.
Proof.
  assert (H1 : 0 < requested_pid (selected 900)) by reflexivity.
  assert (H2 : pid_task MoreDemo.system (requested_pid (selected 900)) = Some MoreDemo.far_task)
    by reflexivity.
  assert (H3 : 0 <= from_kuid_munged MoreDemo.system (task_uid MoreDemo.far_task) < 2 ^ 32)
    by (split; [discriminate | reflexivity]).
  split; [exact H1 | split; [exact H2 | split; [exact H3 |]]].
  exact (owner_line_is_signed (cfg := x86_64) MoreDemo.system (selected 900) MoreDemo.far_task
           H1 H2 H3).
Defined.

Lemma read_cmdline_contract_witness :
  1 <= 16 <= INT_MAX /\
  read_cmdline (Some init_task) (Some "") 16 call_start =
  (15, Some "[командн",
   {| cs_trace := [EvMmGet; EvMmPut]; cs_allocs := 0; cs_out := "" |}) /\
  fst (fst (read_cmdline None (Some "") 16 call_start)) = neg_errno EINVAL /\
  task_mm kthreadd = None /\
  fst (fst (read_cmdline (Some kthreadd) (Some "") 16 call_start)) = neg_errno ENOENT.
Proof.
  assert (H : 1 <= 16 <= INT_MAX) by (split; discriminate).
  split; [exact H | split; [reflexivity | split; [| split; [reflexivity |]]]].
  - exact (proj1 (proj2 (proj2 (proj2 (read_cmdline_contract None (Some "") 16 call_start H))))
             (or_introl eq_refl)).
  - exact (proj1 (proj2 (proj2 (proj2 (proj2
             (read_cmdline_contract (Some kthreadd) (Some "") 16 call_start H)))))
             kthreadd "" eq_refl eq_refl eq_refl).
Defined.

Lemma load_registers_one_entry_witness :
  fst (Lifecycle.process_info_init true MoreDemo.before_load) = 0 /\
  Lifecycle.proc_file (snd (Lifecycle.process_info_init true MoreDemo.before_load)) =
  Some Lifecycle.PROCFS_NAME /\
  fst (Lifecycle.process_info_init false MoreDemo.before_load) = - Lifecycle.ENOMEM.
Proof.
  assert (H : fst (Lifecycle.process_info_init true MoreDemo.before_load) = 0)
    by (vm_compute; reflexivity).
  split; [exact H | split].
  - exact (proj2 (proj1 (proj2 (proj2 (load_registers_one_entry true MoreDemo.before_load))) H)).
  - destruct (proj1 (load_registers_one_entry false MoreDemo.before_load)) as [E | E];
      [vm_compute in E; discriminate E | exact E].
Defined.

Lemma load_then_unload_restores_proc_witness :
  fst (Lifecycle.process_info_init true MoreDemo.before_load) = 0 /\
  Lifecycle.proc_root
    (Lifecycle.process_info_exit (snd (Lifecycle.process_info_init true MoreDemo.before_load))) =
  Lifecycle.proc_root MoreDemo.before_load.
Proof.
  assert (H : fst (Lifecycle.process_info_init true MoreDemo.before_load) = 0)
    by (vm_compute; reflexivity).
  split; [exact H |].
  exact (load_then_unload_restores_proc true MoreDemo.before_load H).
Defined.

End MoreScenarios.
